(** * syslog-sender: a shallow embedding of [main.go]

    The program is a single-shot pipeline: parse the command line, validate
    the configuration, render one RFC 3164 line, write it once to a UDP or
    TCP socket.  Go strings are byte sequences and are modelled by
    [String.string] (a list of 8-bit [ascii]); Go's [int] is modelled by [Z]
    with the 64-bit wrap-around written out where the program does
    arithmetic; the operating system, the clock and the network are an
    explicit [World] whose answers the program consumes, and every effect on
    them is recorded in a trace of [Event]s. *)

From Stdlib Require Import ZArith Lia Bool List.
From Stdlib Require Import Strings.Ascii Strings.String.
Import ListNotations.

Local Open Scope string_scope.
Local Open Scope Z_scope.

(** ** Go's [int] *)

Module goint.

Definition bits : Z := 64.

(** Two's complement wrap-around of an [int] result. *)
Definition wrap (z : Z) : Z :=
  (z + 2 ^ (bits - 1)) mod 2 ^ bits - 2 ^ (bits - 1).

Definition mul (a b : Z) : Z := wrap (a * b).
Definition add (a b : Z) : Z := wrap (a + b).

End goint.

(** ** The parts of package [strconv] and [fmt] the program uses *)

Module strconv.

(** The character of a decimal digit, ['0' + d]. *)
Definition digit (d : Z) : ascii := ascii_of_nat (48 + Z.to_nat d).

(** The loop of [formatBits] in base 10: digits are produced from the least
    significant one and written in front of what is already there.  The
    fuel bounds the number of divisions; [Z.log2 u] of them are enough. *)
Fixpoint formatBits (fuel : nat) (u : Z) (acc : string) : string :=
  let acc' := String (digit (u mod 10)) acc in
  match fuel with
  | O => acc'
  | S k => if u <? 10 then acc' else formatBits k (u / 10) acc'
  end.

Definition FormatUint (u : Z) : string :=
  formatBits (Z.to_nat (Z.log2 u)) u "".

(** [strconv.Itoa], which is also what the verb [%d] prints. *)
Definition Itoa (i : Z) : string :=
  if i <? 0 then String "-" (FormatUint (- i)) else FormatUint i.

End strconv.

(** ** The parts of package [strings] the program uses *)

Module strings.

Definition isUpper (c : ascii) : bool :=
  ((65 <=? nat_of_ascii c) && (nat_of_ascii c <=? 90))%nat.

(** ['A'..'Z'] are moved to ['a'..'z'], every other byte is kept. *)
Definition lowerByte (c : ascii) : ascii :=
  if isUpper c then ascii_of_nat (nat_of_ascii c + 32) else c.

(** [strings.ToLower] on the bytes of the string.  For a string with a byte
    of 0x80 and above Go maps whole runes through the Unicode tables; no
    rune outside ASCII has a lower case among the letters of "udp" and
    "tcp", the only values the program compares the result with, so such a
    string is rejected by the program under either reading. *)
Fixpoint ToLower (s : string) : string :=
  match s with
  | EmptyString => EmptyString
  | String c r => String (lowerByte c) (ToLower r)
  end.

(** ['a'..'z'] are moved to ['A'..'Z'] (used by the final report only). *)
Definition upperByte (c : ascii) : ascii :=
  if ((97 <=? nat_of_ascii c) && (nat_of_ascii c <=? 122))%nat
  then ascii_of_nat (nat_of_ascii c - 32) else c.

Fixpoint ToUpper (s : string) : string :=
  match s with
  | EmptyString => EmptyString
  | String c r => String (upperByte c) (ToUpper r)
  end.

(** Left-to-right replacement of the non-overlapping occurrences of a
    non-empty [old]: [skip] counts the bytes of an occurrence that was
    just replaced and are still to be passed over. *)
Fixpoint replaceFrom (skip : nat) (old new s : string) : string :=
  match s with
  | EmptyString => EmptyString
  | String c r =>
      match skip with
      | S k => replaceFrom k old new r
      | O =>
          if prefix old s
          then new ++ replaceFrom (length old - 1) old new r
          else String c (replaceFrom 0 old new r)
      end
  end.

(** With an empty [old] Go puts [new] in front of every rune and at the
    end; the program never does that, and it is modelled on bytes. *)
Fixpoint insertAround (new s : string) : string :=
  match s with
  | EmptyString => new
  | String c r => new ++ String c (insertAround new r)
  end.

Definition ReplaceAll (s old new : string) : string :=
  match old with
  | EmptyString => insertAround new s
  | String _ _ => replaceFrom 0 old new s
  end.

End strings.

(** ** Package [time]: the one layout the program formats with *)

Module gotime.

Inductive Month :=
| January | February | March | April | May | June
| July | August | September | October | November | December.

(** A wall-clock reading, as far as the layout looks at it. *)
Record Instant := {
  month : Month;
  day : Z;
  hour : Z;
  minute : Z;
  second : Z
}.

Definition shortMonth (m : Month) : string :=
  match m with
  | January => "Jan" | February => "Feb" | March => "Mar"
  | April => "Apr" | May => "May" | June => "Jun"
  | July => "Jul" | August => "Aug" | September => "Sep"
  | October => "Oct" | November => "Nov" | December => "Dec"
  end.

(** Zero padding to two digits, the verbs [15], [04] and [05]. *)
Definition pad2 (x : Z) : string :=
  if x <? 10 then String "0" (strconv.Itoa x) else strconv.Itoa x.

(** [t.Format("Jan  2 15:04:05")]: the month's abbreviation, two literal
    spaces, the day of the month as [2] prints it, a space, and the time
    of day. *)
Definition Format (t : Instant) : string :=
  shortMonth (month t) ++ "  " ++ strconv.Itoa (day t) ++ " "
    ++ pad2 (hour t) ++ ":" ++ pad2 (minute t) ++ ":" ++ pad2 (second t).

End gotime.

(** ** Errors

    A Go [error] of this program is one of the values below; [Error] is its
    text.  Failures of the operating system and of the network carry the
    text of their cause. *)

Inductive error :=
| ErrMessageRequired
| ErrFacilityRange
| ErrSeverityRange
| ErrPortRange
| ErrTransportInvalid
| ErrFormatMessage (cause : string)
| ErrResolveUDP (serverAddr cause : string)
| ErrConnectUDP (cause : string)
| ErrSendUDP (cause : string)
| ErrConnectTCP (cause : string)
| ErrSendTCP (cause : string)
| ErrUnsupportedTransport (transport : string).

Definition Error (e : error) : string :=
  match e with
  | ErrMessageRequired => "message is required"
  | ErrFacilityRange => "facility must be between 0 and 23"
  | ErrSeverityRange => "severity must be between 0 and 7"
  | ErrPortRange => "port must be between 1 and 65535"
  | ErrTransportInvalid => "transport must be 'udp' or 'tcp'"
  | ErrFormatMessage c => "failed to format message: " ++ c
  | ErrResolveUDP a c => "failed to resolve UDP address " ++ a ++ ": " ++ c
  | ErrConnectUDP c => "failed to connect to UDP server: " ++ c
  | ErrSendUDP c => "failed to send UDP message: " ++ c
  | ErrConnectTCP c => "failed to connect to TCP server: " ++ c
  | ErrSendTCP c => "failed to send TCP message: " ++ c
  | ErrUnsupportedTransport t => "unsupported transport: " ++ t
  end.

(** ** The world the process runs in *)

Definition Conn := nat.
Definition UDPAddr := string.

(** The answers of the operating system and of the network.  A failing call
    answers with the text of its error ([inr]); [connWrite] answers [None]
    when the whole buffer was written. *)
Record World := {
  Now : gotime.Instant;
  osHostname : string + string;
  Getenv : string -> string;
  ResolveUDPAddr : string -> string -> UDPAddr + string;
  DialUDP : string -> UDPAddr -> Conn + string;
  DialTimeout : string -> string -> Z -> Conn + string;
  connWrite : Conn -> string -> option string
}.

(** What the process does to the outside, in the order it does it. *)
Inductive Event :=
| EvResolve (network address : string)
| EvDialUDP (network : string) (raddr : UDPAddr)
| EvDialTimeout (network address : string) (seconds : Z)
| EvSetWriteDeadline (c : Conn) (seconds : Z)
| EvWrite (c : Conn) (data : string)
| EvClose (c : Conn)
| EvStdout (text : string)
| EvStderr (text : string)
| EvUsage.

(** Computations that leave a trace. *)
Definition IO (A : Type) : Type := list Event * A.

Definition ret {A : Type} (a : A) : IO A := ([], a).

Definition bind {A B : Type} (m : IO A) (k : A -> IO B) : IO B :=
  let (t1, a) := m in
  let (t2, b) := k a in
  ((t1 ++ t2)%list, b).

Definition emit (e : Event) : IO unit := ([e], tt).

Notation "x <- m ;; k" := (bind m (fun x => k))
  (at level 61, m at next level, right associativity).
Notation "m ;;; k" := (bind m (fun _ => k))
  (at level 61, right associativity).

(** [defer cleanup] in front of [body]: the clean-up runs when the body is
    left, whatever it returns. *)
Definition defer {A : Type} (cleanup : IO unit) (body : IO A) : IO A :=
  a <- body ;; cleanup ;;; ret a.

Definition newline : string := String "010" "".

(** ** The configuration and the client *)

Definition AppName : string := "syslog-sender".
Definition AppVersion : string := "0.2.0".
Definition AppAuthor : string := "https://github.com/wellsgz/syslog-sender".

Record SyslogConfig := {
  Address : string;
  Port : Z;
  Transport : string;
  Facility : Z;
  Severity : Z;
  Message : string;
  Hostname : string;
  Program : string
}.

Record SyslogClient := { config : SyslogConfig }.

Definition NewSyslogClient (c : SyslogConfig) : SyslogClient :=
  {| config := c |}.

Definition setTransport (s : SyslogClient) (t : string) : SyslogClient :=
  {| config :=
       {| Address := Address (config s);
          Port := Port (config s);
          Transport := t;
          Facility := Facility (config s);
          Severity := Severity (config s);
          Message := Message (config s);
          Hostname := Hostname (config s);
          Program := Program (config s) |} |}.

(** [validateConfig] has a pointer receiver: it returns the client as the
    call leaves it, next to the error ([None] is [nil]). *)
Definition validateConfig (s : SyslogClient) : SyslogClient * option error :=
  if (Message (config s) =? "")%string then (s, Some ErrMessageRequired)
  else if (Facility (config s) <? 0) || (Facility (config s) >? 23)
  then (s, Some ErrFacilityRange)
  else if (Severity (config s) <? 0) || (Severity (config s) >? 7)
  then (s, Some ErrSeverityRange)
  else if (Port (config s) <? 1) || (Port (config s) >? 65535)
  then (s, Some ErrPortRange)
  else
    let transport := strings.ToLower (Transport (config s)) in
    if negb (transport =? "udp")%string && negb (transport =? "tcp")%string
    then (s, Some ErrTransportInvalid)
    else (setTransport s transport, None).


(** ** Rendering *)

(** Line 72: [Facility*8 + Severity] in [int] arithmetic. *)
Definition priorityOf (c : SyslogConfig) : Z :=
  goint.add (goint.mul (Facility c) 8) (Severity c).

(** [formatMessage] returns the line and an error, which [Send] tests. *)
Definition formatMessage (w : World) (s : SyslogClient)
  : string * option error :=
  let priority := priorityOf (config s) in
  let timestamp := gotime.Format (Now w) in
  let hostname :=
    if negb (Hostname (config s) =? "")%string then Hostname (config s)
    else
      match osHostname w with
      | inl name => name
      | inr _ => "localhost"
      end in
  let hostname := strings.ReplaceAll hostname " " "-" in
  let program :=
    if negb (Program (config s) =? "")%string then Program (config s)
    else "syslog-sender" in
  let program := strings.ReplaceAll program " " "-" in
  let message :=
    "<" ++ strconv.Itoa priority ++ ">" ++ timestamp ++ " " ++ hostname
      ++ " " ++ program ++ ": " ++ Message (config s) in
  (message, None).

(** ** Transmission *)

Definition serverAddr (s : SyslogClient) : string :=
  Address (config s) ++ ":" ++ strconv.Itoa (Port (config s)).

Definition SendUDP (w : World) (s : SyslogClient) (message : string)
  : IO (option error) :=
  emit (EvResolve "udp" (serverAddr s)) ;;;
  match ResolveUDPAddr w "udp" (serverAddr s) with
  | inr err => ret (Some (ErrResolveUDP (serverAddr s) err))
  | inl udpAddr =>
      emit (EvDialUDP "udp" udpAddr) ;;;
      match DialUDP w "udp" udpAddr with
      | inr err => ret (Some (ErrConnectUDP err))
      | inl conn =>
          defer (emit (EvClose conn))
            (emit (EvSetWriteDeadline conn 5) ;;;
             emit (EvWrite conn message) ;;;
             match connWrite w conn message with
             | Some err => ret (Some (ErrSendUDP err))
             | None => ret None
             end)
      end
  end.

Definition SendTCP (w : World) (s : SyslogClient) (message : string)
  : IO (option error) :=
  emit (EvDialTimeout "tcp" (serverAddr s) 10) ;;;
  match DialTimeout w "tcp" (serverAddr s) 10 with
  | inr err => ret (Some (ErrConnectTCP err))
  | inl conn =>
      defer (emit (EvClose conn))
        (emit (EvSetWriteDeadline conn 5) ;;;
         let messageWithNewline := message ++ newline in
         emit (EvWrite conn messageWithNewline) ;;;
         match connWrite w conn messageWithNewline with
         | Some err => ret (Some (ErrSendTCP err))
         | None => ret None
         end)
  end.

(** [Send] returns the client too: validation writes to it. *)
Definition Send (w : World) (s : SyslogClient)
  : IO (SyslogClient * option error) :=
  match validateConfig s with
  | (s, Some err) => ret (s, Some err)
  | (s, None) =>
      match formatMessage w s with
      | (_, Some err) => ret (s, Some (ErrFormatMessage (Error err)))
      | (message, None) =>
          (if (Getenv w "SYSLOG_DEBUG" =? "1")%string
           then
             emit (EvStdout ("Debug: Sending message: " ++ message ++ newline)) ;;;
             emit (EvStdout ("Debug: Target: " ++ serverAddr s ++ " ("
                               ++ Transport (config s) ++ ")" ++ newline))
           else ret tt) ;;;
          if (Transport (config s) =? "udp")%string
          then err <- SendUDP w s message ;; ret (s, err)
          else if (Transport (config s) =? "tcp")%string
          then err <- SendTCP w s message ;; ret (s, err)
          else ret (s, Some (ErrUnsupportedTransport (Transport (config s))))
      end
  end.

(** ** The command line and [main] *)

(** What [flag.Parse] found: [None] for a flag the caller did not pass. *)
Record CommandLine := {
  flagAddress : option string;
  flagPort : option Z;
  flagTransport : option string;
  flagFacility : option Z;
  flagSeverity : option Z;
  flagMessage : option string;
  flagHostname : option string;
  flagProgram : option string;
  flagHelp : option bool;
  flagVersion : option bool
}.

(** A flag's variable holds its default until the flag is passed. *)
Definition flagVar {A : Type} (default : A) (passed : option A) : A :=
  match passed with
  | Some v => v
  | None => default
  end.

(** The configuration after [flag.Parse], lines 213 to 228. *)
Definition parsedConfig (cl : CommandLine) : SyslogConfig :=
  {| Address := flagVar "localhost" (flagAddress cl);
     Port := flagVar 514 (flagPort cl);
     Transport := flagVar "udp" (flagTransport cl);
     Facility := flagVar 16 (flagFacility cl);
     Severity := flagVar 6 (flagSeverity cl);
     Message := flagVar "" (flagMessage cl);
     Hostname := flagVar "" (flagHostname cl);
     Program := flagVar "" (flagProgram cl) |}.

Definition setPort (c : SyslogConfig) (p : Z) : SyslogConfig :=
  {| Address := Address c;
     Port := p;
     Transport := Transport c;
     Facility := Facility c;
     Severity := Severity c;
     Message := Message c;
     Hostname := Hostname c;
     Program := Program c |}.

(** [flag.Lookup("port").Value.String()]: the flag's value is the variable
    it is bound to, printed in decimal. *)
Definition portFlagString (c : SyslogConfig) : string :=
  strconv.Itoa (Port c).

(** Lines 250 to 253 of [main]. *)
Definition adjustPort (c : SyslogConfig) : SyslogConfig :=
  if (portFlagString c =? "514")%string
     && (strings.ToLower (Transport c) =? "tcp")%string
  then setPort c 601
  else c.

(** The configuration [main] hands to [NewSyslogClient]. *)
Definition mainConfig (cl : CommandLine) : SyslogConfig :=
  adjustPort (parsedConfig cl).

Definition printUsage : IO unit := emit EvUsage.

(** [main], with the exit status of the process as its result.  [log.Fatalf]
    is the line on the error stream, without the date [log] puts in front
    of it, and exit status 1. *)
Definition main (w : World) (cl : CommandLine) : IO Z :=
  let config := parsedConfig cl in
  if flagVar false (flagVersion cl)
  then
    emit (EvStdout (AppName ++ " version " ++ AppVersion ++ newline)) ;;;
    emit (EvStdout ("Project: " ++ AppAuthor ++ newline)) ;;;
    ret 0
  else if flagVar false (flagHelp cl)
  then printUsage ;;; ret 0
  else if (Message config =? "")%string
  then
    emit (EvStderr ("Error: message is required" ++ newline ++ newline)) ;;;
    printUsage ;;;
    ret 1
  else
    let config := adjustPort config in
    let client := NewSyslogClient config in
    r <- Send w client ;;
    match snd r with
    | Some err =>
        emit (EvStderr ("Failed to send syslog message: " ++ Error err)) ;;;
        ret 1
    | None =>
        (if (Getenv w "SYSLOG_DEBUG" =? "1")%string
         then
           emit (EvStdout ("Message sent successfully to " ++ Address config
                             ++ ":" ++ strconv.Itoa (Port config) ++ " via "
                             ++ strings.ToUpper (Transport config) ++ newline))
         else ret tt) ;;;
        ret 0
    end.

(** ** Observations on traces *)

(** The buffers handed to [Write], in order. *)
Fixpoint writes (t : list Event) : list (Conn * string) :=
  match t with
  | [] => []
  | EvWrite c d :: t' => (c, d) :: writes t'
  | _ :: t' => writes t'
  end.

(** ** Notions the statements are written with *)

Definition isDigit (c : ascii) : bool :=
  ((48 <=? nat_of_ascii c) && (nat_of_ascii c <=? 57))%nat.

Fixpoint allDigits (s : string) : bool :=
  match s with
  | EmptyString => true
  | String c r => isDigit c && allDigits r
  end.

Definition digitValue (c : ascii) : Z := Z.of_nat (nat_of_ascii c) - 48.

(** Reading a numeral from the left, as [strconv.Atoi] does. *)
Fixpoint parseFrom (a : Z) (s : string) : Z :=
  match s with
  | EmptyString => a
  | String c r => parseFrom (a * 10 + digitValue c) r
  end.

Definition decimalValue (s : string) : Z := parseFrom 0 s.

(** [s] is the decimal numeral of [n] with no leading zeros: it is not
    empty, made of digits, reads back as [n], and starts with ["0"] only
    when it is ["0"]. *)
Definition DecimalNumeral (s : string) (n : Z) : Prop :=
  s <> "" /\ allDigits s = true /\ decimalValue s = n
  /\ (forall r, s = String "0" r -> r = "").

(** The digits of a natural number, most significant first. *)
Inductive Digits : Z -> string -> Prop :=
| Digits_one u :
    0 <= u < 10 -> Digits u (String (strconv.digit u) "")
| Digits_more u s :
    10 <= u -> Digits (u / 10) s ->
    Digits u (s ++ String (strconv.digit (u mod 10)) "").

(** The spellings of a transport that differ from it in case only. *)
Definition udpSpellings : list string :=
  ["udp"; "udP"; "uDp"; "uDP"; "Udp"; "UdP"; "UDp"; "UDP"].

Definition tcpSpellings : list string :=
  ["tcp"; "tcP"; "tCp"; "tCP"; "Tcp"; "TcP"; "TCp"; "TCP"].

(** Where the reporting host comes from, in the words of the
    specification: the override if present, else the system's host name,
    else "localhost" when the lookup fails. *)
Inductive HostSource (w : World) (s : SyslogClient) : string -> Prop :=
| HostOverride :
    Hostname (config s) <> "" -> HostSource w s (Hostname (config s))
| HostSystem name :
    Hostname (config s) = "" -> osHostname w = inl name ->
    HostSource w s name
| HostFallback e :
    Hostname (config s) = "" -> osHostname w = inr e ->
    HostSource w s "localhost".

(** Where the reporting program comes from: the override if present, else
    the fixed default. *)
Inductive ProgramSource (s : SyslogClient) : string -> Prop :=
| ProgramOverride :
    Program (config s) <> "" -> ProgramSource s (Program (config s))
| ProgramDefault :
    Program (config s) = "" -> ProgramSource s "syslog-sender".

(** [b] is [a] with each space turned into a hyphen and every other byte
    kept where it is. *)
Definition Hyphenated (a b : string) : Prop :=
  length b = length a
  /\ (forall i, get i a = Some " "%char -> get i b = Some "-"%char)
  /\ (forall i c, get i a = Some c -> c <> " "%char -> get i b = Some c).

(** The parts occur in the line one after the other, without overlap. *)
Fixpoint ContainsInOrder (line : string) (parts : list string) : Prop :=
  match parts with
  | [] => True
  | p :: ps =>
      exists before after,
        line = before ++ p ++ after /\ ContainsInOrder after ps
  end.

Definition tab : ascii := "009"%char.

(** The outcomes of validation, one for each way through the function. *)
Inductive Validated (s : SyslogClient) : SyslogClient * option error -> Prop :=
| V_message :
    Message (config s) = "" ->
    Validated s (s, Some ErrMessageRequired)
| V_facility :
    Message (config s) <> "" ->
    ~ 0 <= Facility (config s) <= 23 ->
    Validated s (s, Some ErrFacilityRange)
| V_severity :
    Message (config s) <> "" ->
    0 <= Facility (config s) <= 23 ->
    ~ 0 <= Severity (config s) <= 7 ->
    Validated s (s, Some ErrSeverityRange)
| V_port :
    Message (config s) <> "" ->
    0 <= Facility (config s) <= 23 ->
    0 <= Severity (config s) <= 7 ->
    ~ 1 <= Port (config s) <= 65535 ->
    Validated s (s, Some ErrPortRange)
| V_transport :
    Message (config s) <> "" ->
    0 <= Facility (config s) <= 23 ->
    0 <= Severity (config s) <= 7 ->
    1 <= Port (config s) <= 65535 ->
    strings.ToLower (Transport (config s)) <> "udp" ->
    strings.ToLower (Transport (config s)) <> "tcp" ->
    Validated s (s, Some ErrTransportInvalid)
| V_ok :
    Message (config s) <> "" ->
    0 <= Facility (config s) <= 23 ->
    0 <= Severity (config s) <= 7 ->
    1 <= Port (config s) <= 65535 ->
    strings.ToLower (Transport (config s)) = "udp"
    \/ strings.ToLower (Transport (config s)) = "tcp" ->
    Validated s (setTransport s (strings.ToLower (Transport (config s))), None).

(** The errors of the two transmitters. *)
Definition transportError (e : error) : bool :=
  match e with
  | ErrResolveUDP _ _ | ErrConnectUDP _ | ErrSendUDP _
  | ErrConnectTCP _ | ErrSendTCP _ => true
  | _ => false
  end.

(** ** Concrete inputs the statements are tried on *)

Definition sampleInstant : gotime.Instant :=
  {| gotime.month := gotime.November;
     gotime.day := 3;
     gotime.hour := 7;
     gotime.minute := 5;
     gotime.second := 59 |}.

Definition midMonthInstant : gotime.Instant :=
  {| gotime.month := gotime.November;
     gotime.day := 15;
     gotime.hour := 7;
     gotime.minute := 5;
     gotime.second := 59 |}.

(** A machine called "build box" whose network accepts everything. *)
Definition sampleWorld : World :=
  {| Now := sampleInstant;
     osHostname := inl "build box";
     Getenv := fun _ => "";
     ResolveUDPAddr := fun _ a => inl a;
     DialUDP := fun _ _ => inl 3%nat;
     DialTimeout := fun _ _ _ => inl 4%nat;
     connWrite := fun _ _ => None |}.

(** A machine without a host name and without a reachable network. *)
Definition isolatedWorld : World :=
  {| Now := sampleInstant;
     osHostname := inr "hostname: not available";
     Getenv := fun _ => "";
     ResolveUDPAddr := fun _ _ => inr "no such host";
     DialUDP := fun _ _ => inr "network is unreachable";
     DialTimeout := fun _ _ _ => inr "connection refused";
     connWrite := fun _ _ => Some "broken pipe" |}.

Definition sampleConfig : SyslogConfig :=
  {| Address := "localhost";
     Port := 514;
     Transport := "UDP";
     Facility := 16;
     Severity := 6;
     Message := "test message";
     Hostname := "test host name";
     Program := "test program" |}.

(** No overrides: the host and the program take their defaults. *)
Definition plainConfig : SyslogConfig :=
  {| Address := "localhost";
     Port := 601;
     Transport := "tcp";
     Facility := 4;
     Severity := 1;
     Message := "security alert";
     Hostname := "";
     Program := "" |}.

(** An empty body together with a facility out of range. *)
Definition emptyBodyConfig : SyslogConfig :=
  {| Address := "localhost";
     Port := 514;
     Transport := "udp";
     Facility := 25;
     Severity := 6;
     Message := "";
     Hostname := "";
     Program := "" |}.

(** A machine whose host name starts and ends with a space and holds a
    tab. *)
Definition paddedWorld : World :=
  {| Now := sampleInstant;
     osHostname := inl (String " " (String "a" (String tab (String "b" " "))));
     Getenv := fun _ => "";
     ResolveUDPAddr := fun _ a => inl a;
     DialUDP := fun _ _ => inl 3%nat;
     DialTimeout := fun _ _ _ => inl 4%nat;
     connWrite := fun _ _ => None |}.

(** [-transport tcp -port 514 -message hi] *)
Definition tcpExplicit514 : CommandLine :=
  {| flagAddress := None;
     flagPort := Some 514;
     flagTransport := Some "tcp";
     flagFacility := None;
     flagSeverity := None;
     flagMessage := Some "hi";
     flagHostname := None;
     flagProgram := None;
     flagHelp := None;
     flagVersion := None |}.

(** [-message hi] *)
Definition messageOnly : CommandLine :=
  {| flagAddress := None;
     flagPort := None;
     flagTransport := None;
     flagFacility := None;
     flagSeverity := None;
     flagMessage := Some "hi";
     flagHostname := None;
     flagProgram := None;
     flagHelp := None;
     flagVersion := None |}.

(** [-transport tcp -message hi] *)
Definition tcpNoPort : CommandLine :=
  {| flagAddress := None;
     flagPort := None;
     flagTransport := Some "tcp";
     flagFacility := None;
     flagSeverity := None;
     flagMessage := Some "hi";
     flagHostname := None;
     flagProgram := None;
     flagHelp := None;
     flagVersion := None |}.

(** [-transport TCP -port 6514 -message hi] *)
Definition tcpExplicit6514 : CommandLine :=
  {| flagAddress := None;
     flagPort := Some 6514;
     flagTransport := Some "TCP";
     flagFacility := None;
     flagSeverity := None;
     flagMessage := Some "hi";
     flagHostname := None;
     flagProgram := None;
     flagHelp := None;
     flagVersion := None |}.

(** ** Further notions: errors, traces and the course of a send *)

(** The errors of validation. *)
Definition configError (e : error) : bool :=
  match e with
  | ErrMessageRequired | ErrFacilityRange | ErrSeverityRange
  | ErrPortRange | ErrTransportInvalid => true
  | _ => false
  end.

Definition isStdout (e : Event) : bool :=
  match e with
  | EvStdout _ => true
  | _ => false
  end.

(** What touches the network. *)
Definition isNetwork (e : Event) : bool :=
  match e with
  | EvResolve _ _ | EvDialUDP _ _ | EvDialTimeout _ _ _
  | EvSetWriteDeadline _ _ | EvWrite _ _ | EvClose _ => true
  | _ => false
  end.

Definition network (t : list Event) : list Event := filter isNetwork t.

(** The connections closed, in order. *)
Fixpoint closes (t : list Event) : list Conn :=
  match t with
  | [] => []
  | EvClose c :: t' => c :: closes t'
  | _ :: t' => closes t'
  end.

(** The course of one send attempt: output may come first; then the target
    is resolved and dialled over UDP, or dialled over TCP within ten
    seconds; on an open connection a deadline of five seconds is set, one
    buffer is written and the connection is closed; nothing follows. *)
Inductive Phase :=
| Idle
| Resolved
| Dialled
| Armed (c : Conn)
| Written (c : Conn)
| Closed.

Definition step (target : string) (p : Phase) (e : Event) : option Phase :=
  match p, e with
  | Idle, EvStdout _ => Some Idle
  | Idle, EvResolve n a =>
      if (n =? "udp")%string && (a =? target)%string
      then Some Resolved else None
  | Resolved, EvDialUDP n _ =>
      if (n =? "udp")%string then Some Dialled else None
  | Idle, EvDialTimeout n a d =>
      if (n =? "tcp")%string && (a =? target)%string && (d =? 10)
      then Some Dialled else None
  | Dialled, EvSetWriteDeadline c d =>
      if d =? 5 then Some (Armed c) else None
  | Armed c, EvWrite c' _ =>
      if (c =? c')%nat then Some (Written c) else None
  | Written c, EvClose c' =>
      if (c =? c')%nat then Some Closed else None
  | _, _ => None
  end.

Fixpoint run (target : string) (p : Phase) (t : list Event) : option Phase :=
  match t with
  | [] => Some p
  | e :: t' =>
      match step target p e with
      | Some p' => run target p' t'
      | None => None
      end
  end.

(** A trace may stop where no connection is open. *)
Definition atRest (p : Phase) : bool :=
  match p with
  | Idle | Resolved | Dialled | Closed => true
  | Armed _ | Written _ => false
  end.

Definition conforms (target : string) (t : list Event) : bool :=
  match run target Idle t with
  | Some p => atRest p
  | None => false
  end.

(** The same machine with another environment. *)
Definition withGetenv (w : World) (g : string -> string) : World :=
  {| Now := Now w;
     osHostname := osHostname w;
     Getenv := g;
     ResolveUDPAddr := ResolveUDPAddr w;
     DialUDP := DialUDP w;
     DialTimeout := DialTimeout w;
     connWrite := connWrite w |}.

(** A reading a clock can give. *)
Definition validInstant (t : gotime.Instant) : Prop :=
  1 <= gotime.day t <= 31 /\ 0 <= gotime.hour t <= 23
  /\ 0 <= gotime.minute t <= 59 /\ 0 <= gotime.second t <= 59.

(** A machine whose network connects and whose writes fail. *)
Definition brokenPipeWorld : World :=
  {| Now := sampleInstant;
     osHostname := inl "build box";
     Getenv := fun _ => "1";
     ResolveUDPAddr := fun _ a => inl a;
     DialUDP := fun _ _ => inl 3%nat;
     DialTimeout := fun _ _ _ => inl 4%nat;
     connWrite := fun _ _ => Some "broken pipe" |}.

(** ** The tests of [main_test.go]

    A test is modelled by the reports it hands to [t.Errorf], in order; it
    passes when there is none. *)

(** [strings.HasPrefix] and [strings.Contains]. *)
Definition HasPrefix (s p : string) : bool := prefix p s.

Fixpoint Contains (s substr : string) : bool :=
  prefix substr s
  || match s with
     | EmptyString => false
     | String _ r => Contains r substr
     end.

(** The verb [%v] on an [error] and on a [bool]. *)
Definition showError (e : option error) : string :=
  match e with
  | Some err => Error err
  | None => "<nil>"
  end.

Definition showBool (b : bool) : string := if b then "true" else "false".

Definition isError (e : option error) : bool :=
  match e with
  | Some _ => true
  | None => false
  end.

Record configCase := {
  cc_name : string;
  cc_config : SyslogConfig;
  cc_wantErr : bool
}.

Definition baseConfig (message : string) : SyslogConfig :=
  {| Address := "localhost";
     Port := 514;
     Transport := "udp";
     Facility := 16;
     Severity := 6;
     Message := message;
     Hostname := "";
     Program := "" |}.

Definition namedConfig (facility severity : Z) (message hostname program : string)
  : SyslogConfig :=
  {| Address := "localhost";
     Port := 514;
     Transport := "udp";
     Facility := facility;
     Severity := severity;
     Message := message;
     Hostname := hostname;
     Program := program |}.

Definition syslogConfigCases : list configCase :=
  [ {| cc_name := "valid config";
       cc_config := namedConfig 16 6 "test message" "test-host" "test-program";
       cc_wantErr := false |};
    {| cc_name := "empty message";
       cc_config := baseConfig "";
       cc_wantErr := true |};
    {| cc_name := "invalid facility";
       cc_config := namedConfig 25 6 "test message" "" "";
       cc_wantErr := true |};
    {| cc_name := "invalid severity";
       cc_config := namedConfig 16 8 "test message" "" "";
       cc_wantErr := true |};
    {| cc_name := "invalid port";
       cc_config := {| Address := "localhost"; Port := 0; Transport := "udp";
                       Facility := 16; Severity := 6;
                       Message := "test message";
                       Hostname := ""; Program := "" |};
       cc_wantErr := true |};
    {| cc_name := "invalid transport";
       cc_config := {| Address := "localhost"; Port := 514;
                       Transport := "invalid";
                       Facility := 16; Severity := 6;
                       Message := "test message";
                       Hostname := ""; Program := "" |};
       cc_wantErr := true |} ].

Definition TestSyslogConfig : list string :=
  flat_map
    (fun tt =>
       let client := NewSyslogClient (cc_config tt) in
       let err := snd (validateConfig client) in
       if negb (Bool.eqb (isError err) (cc_wantErr tt))
       then ["validateConfig() error = " ++ showError err ++ ", wantErr "
               ++ showBool (cc_wantErr tt)]
       else [])
    syslogConfigCases.

Record formatCase := {
  fc_name : string;
  fc_config : SyslogConfig;
  fc_contains : list string
}.

Definition basicConfig : SyslogConfig :=
  namedConfig 16 6 "test message" "test-host" "test-program".

Definition securityConfig : SyslogConfig :=
  namedConfig 4 1 "security alert" "security-host" "security-app".

Definition spacedConfig : SyslogConfig :=
  namedConfig 16 6 "test message" "test host name" "test program".

Definition formatCases : list formatCase :=
  [ {| fc_name := "basic message formatting";
       fc_config := basicConfig;
       fc_contains := ["<134>"; "test-host"; "test-program:"; "test message"] |};
    {| fc_name := "priority calculation";
       fc_config := securityConfig;
       fc_contains := ["<33>"; "security-host"; "security-app:";
                       "security alert"] |};
    {| fc_name := "hostname with spaces";
       fc_config := spacedConfig;
       fc_contains := ["<134>"; "test-host-name"; "test-program:";
                       "test message"] |} ].

(** The checks of one formatted line: a report for each expected part the
    line does not hold. *)
Definition expectContains (message : string) (expected : list string)
  : list string :=
  flat_map
    (fun e =>
       if negb (Contains message e)
       then ["formatMessage() = " ++ message ++ ", expected to contain " ++ e]
       else [])
    expected.

Definition TestFormatMessage (w : World) : list string :=
  flat_map
    (fun tt =>
       let client := NewSyslogClient (fc_config tt) in
       match formatMessage w client with
       | (_, Some err) => ["formatMessage() error = " ++ Error err]
       | (message, None) => expectContains message (fc_contains tt)
       end)
    formatCases.

Record priorityCase := {
  pc_facility : Z;
  pc_severity : Z;
  pc_expected : Z
}.

Definition priorityCases : list priorityCase :=
  [ {| pc_facility := 0; pc_severity := 0; pc_expected := 0 |};
    {| pc_facility := 1; pc_severity := 6; pc_expected := 14 |};
    {| pc_facility := 16; pc_severity := 6; pc_expected := 134 |};
    {| pc_facility := 4; pc_severity := 1; pc_expected := 33 |};
    {| pc_facility := 23; pc_severity := 7; pc_expected := 191 |} ].

(** The body of one run of [TestPriorityCalculation]. *)
Definition checkPriority (w : World) (tt : priorityCase) : list string :=
  let config := namedConfig (pc_facility tt) (pc_severity tt)
                  "test message" "" "" in
  let client := NewSyslogClient config in
  match formatMessage w client with
  | (_, Some err) => ["formatMessage() error = " ++ Error err]
  | (message, None) =>
      let expectedPriority :=
        goint.add (goint.mul (pc_facility tt) 8) (pc_severity tt) in
      let expectedPrefix := "<" ++ strconv.Itoa expectedPriority ++ ">" in
      if negb (HasPrefix message expectedPrefix)
      then ["Expected priority " ++ strconv.Itoa expectedPriority
              ++ ", got message: " ++ message]
      else []
  end.

Definition TestPriorityCalculation (w : World) : list string :=
  flat_map (checkPriority w) priorityCases.

Definition TestMessageFormat (w : World) : list string :=
  let client := NewSyslogClient basicConfig in
  match formatMessage w client with
  | (_, Some err) => ["formatMessage() error = " ++ Error err]
  | (message, None) =>
      let r1 :=
        if negb (HasPrefix message "<134>")
        then ["Expected priority <134>, got: " ++ message] else [] in
      let r2 :=
        if negb (Contains message "test-host")
        then ["Expected hostname 'test-host' in message: " ++ message]
        else [] in
      let r3 :=
        if negb (Contains message "test-program:")
        then ["Expected program 'test-program:' in message: " ++ message]
        else [] in
      let r4 :=
        if negb (Contains message "test message")
        then ["Expected message content 'test message' in: " ++ message]
        else [] in
      (r1 ++ r2 ++ r3 ++ r4)%list
  end.

Definition spaceHandlingConfig : SyslogConfig :=
  namedConfig 16 6 "test message with spaces" "host with spaces"
    "program with spaces".

Definition TestSpaceHandling (w : World) : list string :=
  let client := NewSyslogClient spaceHandlingConfig in
  match formatMessage w client with
  | (_, Some err) => ["formatMessage() error = " ++ Error err]
  | (message, None) =>
      let r1 :=
        if negb (Contains message "host-with-spaces")
        then ["Expected hostname with hyphens, got: " ++ message] else [] in
      let r2 :=
        if negb (Contains message "program-with-spaces:")
        then ["Expected program with hyphens, got: " ++ message] else [] in
      let r3 :=
        if negb (Contains message "test message with spaces")
        then ["Expected message spaces to be preserved, got: " ++ message]
        else [] in
      (r1 ++ r2 ++ r3)%list
  end.

(** ** The timestamp of the specification

    In the words of the specification (4.2), which are those of RFC 3164,
    the format the comments on lines 69 and 74 name: the month abbreviated,
    a space, the day padded with a space to two characters, a space, and
    hour, minute and second with two digits each between colons. *)

Definition twoDigits (x : Z) : string :=
  String (strconv.digit (x / 10)) (String (strconv.digit (x mod 10)) "").

Definition spacePaddedDay (d : Z) : string :=
  if d <? 10 then String " " (String (strconv.digit d) "") else twoDigits d.

Definition rfc3164Timestamp (t : gotime.Instant) : string :=
  gotime.shortMonth (gotime.month t) ++ " " ++ spacePaddedDay (gotime.day t)
    ++ " " ++ twoDigits (gotime.hour t) ++ ":" ++ twoDigits (gotime.minute t)
    ++ ":" ++ twoDigits (gotime.second t).

(** The sample machine on the 15th of November. *)
Definition midMonthWorld : World :=
  {| Now := midMonthInstant;
     osHostname := inl "build box";
     Getenv := fun _ => "";
     ResolveUDPAddr := fun _ a => inl a;
     DialUDP := fun _ _ => inl 3%nat;
     DialTimeout := fun _ _ _ => inl 4%nat;
     connWrite := fun _ _ => None |}.

(** ** The process from [flag.Parse] on

    Line 228.  The flag set of the command line exits on error: an argument
    it cannot parse (an unknown flag, a value that is no number) is
    reported on the error stream, the usage is printed and the process
    exits with status 2; [-h], which is not among the flags defined, prints
    the usage and exits with status 0.  In both cases [main] goes no
    further. *)
Inductive ParseOutcome :=
| Parsed (cl : CommandLine)
| HelpRequested
| ParseFailed (message : string).

Definition mainWithParse (w : World) (p : ParseOutcome) : IO Z :=
  match p with
  | Parsed cl => main w cl
  | HelpRequested => printUsage ;;; ret 0
  | ParseFailed message =>
      emit (EvStderr (message ++ newline)) ;;; printUsage ;;; ret 2
  end.

(** ** Decimal printing *)

Lemma append_assoc (a b c : string) : (a ++ b) ++ c = a ++ (b ++ c).
Proof.
  induction a as [|x a IH]; simpl; [reflexivity | now rewrite IH].
Qed.

Lemma append_nil_r (a : string) : a ++ "" = a.
Proof.
  induction a as [|x a IH]; simpl; [reflexivity | now rewrite IH].
Qed.

Lemma formatBits_acc fuel :
  forall u acc,
    strconv.formatBits fuel u acc = strconv.formatBits fuel u "" ++ acc.
Proof.
  induction fuel as [|k IH]; intros u acc; simpl.
  - reflexivity.
  - destruct (u <? 10); [reflexivity|].
    rewrite IH, (IH _ (String _ "")), append_assoc.
    reflexivity.
Qed.

Lemma formatBits_Digits fuel :
  forall u,
    0 <= u < 2 * 2 ^ Z.of_nat fuel ->
    Digits u (strconv.formatBits fuel u "").
Proof.
  induction fuel as [|k IH]; intros u Hu.
  - simpl in *.
    rewrite Z.mod_small by lia.
    apply Digits_one; lia.
  - cbn [strconv.formatBits].
    destruct (Z.ltb_spec u 10) as [Hlt|Hge].
    + rewrite Z.mod_small by lia.
      apply Digits_one; lia.
    + rewrite formatBits_acc.
      apply Digits_more; [exact Hge|].
      apply IH.
      rewrite Nat2Z.inj_succ, Z.pow_succ_r in Hu by lia.
      assert (0 < 2 ^ Z.of_nat k) by (apply Z.pow_pos_nonneg; lia).
      split; [apply Z.div_pos; lia|].
      apply Z.div_lt_upper_bound; lia.
Qed.

Lemma FormatUint_Digits u : 0 <= u -> Digits u (strconv.FormatUint u).
Proof.
  intros Hu.
  unfold strconv.FormatUint.
  apply formatBits_Digits.
  rewrite Z2Nat.id by apply Z.log2_nonneg.
  destruct (Z.eq_dec u 0) as [->|Hne].
  - simpl; lia.
  - pose proof (Z.log2_spec u ltac:(lia)) as Hs.
    rewrite Z.pow_succ_r in Hs by apply Z.log2_nonneg.
    lia.
Qed.

Lemma digit_cases d :
  0 <= d < 10 ->
  d = 0 \/ d = 1 \/ d = 2 \/ d = 3 \/ d = 4
  \/ d = 5 \/ d = 6 \/ d = 7 \/ d = 8 \/ d = 9.
Proof. lia. Qed.

Lemma isDigit_digit d : 0 <= d < 10 -> isDigit (strconv.digit d) = true.
Proof.
  intros H.
  destruct (digit_cases d H) as [->|[->|[->|[->|[->|[->|[->|[->|[->| ->]]]]]]]]];
    reflexivity.
Qed.

Lemma digitValue_digit d : 0 <= d < 10 -> digitValue (strconv.digit d) = d.
Proof.
  intros H.
  destruct (digit_cases d H) as [->|[->|[->|[->|[->|[->|[->|[->|[->| ->]]]]]]]]];
    reflexivity.
Qed.

Lemma digit_zero d : 0 <= d < 10 -> strconv.digit d = "0"%char -> d = 0.
Proof.
  intros H E.
  apply (f_equal digitValue) in E.
  rewrite digitValue_digit in E by exact H.
  exact E.
Qed.

Lemma allDigits_app a b : allDigits (a ++ b) = allDigits a && allDigits b.
Proof.
  induction a as [|x a IH]; simpl; [reflexivity|].
  now rewrite IH, andb_assoc.
Qed.

Lemma parseFrom_app a :
  forall v b, parseFrom v (a ++ b) = parseFrom (parseFrom v a) b.
Proof.
  induction a as [|x a IH]; intros v b; simpl; [reflexivity | apply IH].
Qed.

Lemma Digits_allDigits u s : Digits u s -> allDigits s = true.
Proof.
  induction 1 as [u Hu|u s Hu _ IH].
  - cbn [allDigits]. rewrite isDigit_digit by exact Hu. reflexivity.
  - rewrite allDigits_app, IH. cbn [allDigits].
    rewrite isDigit_digit; [reflexivity|].
    apply Z.mod_pos_bound; lia.
Qed.

Lemma Digits_value u s : Digits u s -> decimalValue s = u.
Proof.
  unfold decimalValue.
  induction 1 as [u Hu|u s Hu _ IH].
  - cbn [parseFrom]. rewrite digitValue_digit by exact Hu. reflexivity.
  - rewrite parseFrom_app, IH. cbn [parseFrom].
    rewrite digitValue_digit by (apply Z.mod_pos_bound; lia).
    pose proof (Z.div_mod u 10 ltac:(lia)). lia.
Qed.

(** The first digit is zero for zero only. *)
Lemma Digits_head u s :
  Digits u s ->
  exists c r, s = String c r /\ (c = "0"%char -> u = 0 /\ r = "").
Proof.
  induction 1 as [u Hu|u s Hu _ IH].
  - exists (strconv.digit u), "".
    split; [reflexivity|].
    intros E. split; [apply digit_zero; assumption | reflexivity].
  - destruct IH as (c & r & -> & Hc).
    exists c, (r ++ String (strconv.digit (u mod 10)) "").
    split; [reflexivity|].
    intros E. destruct (Hc E) as [Hz _].
    assert (1 <= u / 10) by (apply Z.div_le_lower_bound; lia).
    lia.
Qed.

Lemma Digits_DecimalNumeral u s : Digits u s -> DecimalNumeral s u.
Proof.
  intros H.
  destruct (Digits_head u s H) as (c & r & -> & Hc).
  repeat split.
  - discriminate.
  - exact (Digits_allDigits _ _ H).
  - exact (Digits_value _ _ H).
  - intros r' E. injection E as Ec Er. subst r'.
    apply Hc. exact Ec.
Qed.

Lemma Itoa_nonneg i : 0 <= i -> strconv.Itoa i = strconv.FormatUint i.
Proof.
  intros H. unfold strconv.Itoa.
  destruct (Z.ltb_spec i 0); [lia | reflexivity].
Qed.

Lemma Itoa_DecimalNumeral i : 0 <= i -> DecimalNumeral (strconv.Itoa i) i.
Proof.
  intros H.
  rewrite Itoa_nonneg by exact H.
  apply Digits_DecimalNumeral, FormatUint_Digits, H.
Qed.

(** Printing is injective at ["514"]: only 514 prints so. *)
Lemma Itoa_514 i : strconv.Itoa i = "514" -> i = 514.
Proof.
  intros E.
  destruct (Z.ltb_spec i 0) as [Hneg|Hpos].
  - unfold strconv.Itoa in E.
    destruct (Z.ltb_spec i 0); [discriminate | lia].
  - destruct (Itoa_DecimalNumeral i Hpos) as (_ & _ & Hv & _).
    rewrite E in Hv. vm_compute in Hv. congruence.
Qed.

(** ** Validation *)

Lemma validateConfig_Validated s : Validated s (validateConfig s).
Proof.
  unfold validateConfig.
  destruct (String.eqb_spec (Message (config s)) "") as [Hm|Hm].
  { now apply V_message. }
  destruct (Z.ltb_spec (Facility (config s)) 0) as [Hf0|Hf0]; cbn [orb].
  { apply V_facility; [exact Hm | lia]. }
  rewrite Z.gtb_ltb.
  destruct (Z.ltb_spec 23 (Facility (config s))) as [Hf1|Hf1].
  { apply V_facility; [exact Hm | lia]. }
  destruct (Z.ltb_spec (Severity (config s)) 0) as [Hs0|Hs0]; cbn [orb].
  { apply V_severity; [exact Hm | lia | lia]. }
  rewrite Z.gtb_ltb.
  destruct (Z.ltb_spec 7 (Severity (config s))) as [Hs1|Hs1].
  { apply V_severity; [exact Hm | lia | lia]. }
  destruct (Z.ltb_spec (Port (config s)) 1) as [Hp0|Hp0]; cbn [orb].
  { apply V_port; [exact Hm | lia | lia | lia]. }
  rewrite Z.gtb_ltb.
  destruct (Z.ltb_spec 65535 (Port (config s))) as [Hp1|Hp1].
  { apply V_port; [exact Hm | lia | lia | lia]. }
  cbv zeta.
  destruct (String.eqb_spec (strings.ToLower (Transport (config s))) "udp")
    as [Hu|Hu]; cbn [negb andb].
  { apply V_ok; [exact Hm | lia | lia | lia | now left]. }
  destruct (String.eqb_spec (strings.ToLower (Transport (config s))) "tcp")
    as [Ht|Ht]; cbn [negb andb].
  { apply V_ok; [exact Hm | lia | lia | lia | now right]. }
  apply V_transport; [exact Hm | lia | lia | lia | exact Hu | exact Ht].
Qed.

(** A byte whose lower case is [x] is [x] or the capital of [x]. *)
Lemma lowerByte_inv c x :
  strings.lowerByte c = x ->
  c = x \/ c = ascii_of_nat (nat_of_ascii x - 32).
Proof.
  unfold strings.lowerByte, strings.isUpper.
  destruct (_ && _)%bool eqn:E; intros <-; [right | now left].
  apply andb_true_iff in E. destruct E as [_ E].
  apply Nat.leb_le in E.
  rewrite nat_ascii_embedding by lia.
  rewrite Nat.add_sub.
  symmetry. apply ascii_nat_embedding.
Qed.

Lemma ToLower_three t a b c :
  strings.ToLower t = String a (String b (String c "")) ->
  exists x y z,
    t = String x (String y (String z ""))
    /\ strings.lowerByte x = a /\ strings.lowerByte y = b
    /\ strings.lowerByte z = c.
Proof.
  destruct t as [|x [|y [|z [|? ?]]]]; cbn [strings.ToLower];
    intros E; try discriminate.
  injection E as Ea Eb Ec.
  now exists x, y, z.
Qed.

Lemma ToLower_udp t : strings.ToLower t = "udp" <-> In t udpSpellings.
Proof.
  split.
  - intros E.
    destruct (ToLower_three _ _ _ _ E) as (x & y & z & -> & Hx & Hy & Hz).
    apply lowerByte_inv in Hx, Hy, Hz.
    destruct Hx as [->| ->], Hy as [->| ->], Hz as [->| ->];
      vm_compute; tauto.
  - intros H.
    repeat (destruct H as [<-|H]; [reflexivity|]).
    destruct H.
Qed.

Lemma ToLower_tcp t : strings.ToLower t = "tcp" <-> In t tcpSpellings.
Proof.
  split.
  - intros E.
    destruct (ToLower_three _ _ _ _ E) as (x & y & z & -> & Hx & Hy & Hz).
    apply lowerByte_inv in Hx, Hy, Hz.
    destruct Hx as [->| ->], Hy as [->| ->], Hz as [->| ->];
      vm_compute; tauto.
  - intros H.
    repeat (destruct H as [<-|H]; [reflexivity|]).
    destruct H.
Qed.

(** Claim C3.  [validateConfig] fails exactly when the body is empty, or the
    facility is outside 0..23, or the severity is outside 0..7, or the port
    is outside 1..65535, or the transport is not a spelling of "udp" or
    "tcp" up to the case of its letters; on every other configuration it
    succeeds. *)
Theorem validateConfig_fails_iff s :
  let invalid :=
    Message (config s) = ""
    \/ ~ 0 <= Facility (config s) <= 23
    \/ ~ 0 <= Severity (config s) <= 7
    \/ ~ 1 <= Port (config s) <= 65535
    \/ ~ (In (Transport (config s)) udpSpellings
          \/ In (Transport (config s)) tcpSpellings) in
  (snd (validateConfig s) <> None <-> invalid)
  /\ (~ invalid -> snd (validateConfig s) = None).
Proof.
  cbv zeta.
  rewrite <- ToLower_udp, <- ToLower_tcp.
  destruct (validateConfig_Validated s); cbn [snd];
    (split; [split|]); intros; try congruence; try tauto.
Qed.

(** On the sample configuration, whose transport is spelled "UDP",
    validation succeeds. *)
Lemma validateConfig_fails_iff_witness :
  snd (validateConfig (NewSyslogClient sampleConfig)) = None.
Proof.
  apply (proj2 (validateConfig_fails_iff (NewSyslogClient sampleConfig))).
  cbn.
  intros [H|[H|[H|[H|H]]]]; [discriminate | lia | lia | lia |].
  apply H. left. right. right. right. right. right. right. right. left.
  reflexivity.
Defined.

(** Claim C4.  The checks run in the order body, facility, severity, port,
    transport, and the error returned is that of the first check that
    fails; in particular an empty body together with a facility out of
    range is reported as the missing message. *)
Theorem validateConfig_first_failure s :
  (Message (config s) = "" ->
   snd (validateConfig s) = Some ErrMessageRequired)
  /\ (Message (config s) <> "" ->
      ~ 0 <= Facility (config s) <= 23 ->
      snd (validateConfig s) = Some ErrFacilityRange)
  /\ (Message (config s) <> "" ->
      0 <= Facility (config s) <= 23 ->
      ~ 0 <= Severity (config s) <= 7 ->
      snd (validateConfig s) = Some ErrSeverityRange)
  /\ (Message (config s) <> "" ->
      0 <= Facility (config s) <= 23 ->
      0 <= Severity (config s) <= 7 ->
      ~ 1 <= Port (config s) <= 65535 ->
      snd (validateConfig s) = Some ErrPortRange)
  /\ (Message (config s) <> "" ->
      0 <= Facility (config s) <= 23 ->
      0 <= Severity (config s) <= 7 ->
      1 <= Port (config s) <= 65535 ->
      ~ (In (Transport (config s)) udpSpellings
         \/ In (Transport (config s)) tcpSpellings) ->
      snd (validateConfig s) = Some ErrTransportInvalid)
  /\ (Message (config s) <> "" ->
      0 <= Facility (config s) <= 23 ->
      0 <= Severity (config s) <= 7 ->
      1 <= Port (config s) <= 65535 ->
      In (Transport (config s)) udpSpellings
      \/ In (Transport (config s)) tcpSpellings ->
      snd (validateConfig s) = None)
  /\ (Message (config s) = "" ->
      ~ 0 <= Facility (config s) <= 23 ->
      snd (validateConfig s) = Some ErrMessageRequired).
Proof.
  rewrite <- ToLower_udp, <- ToLower_tcp.
  destruct (validateConfig_Validated s); cbn [snd];
    repeat split; intros; try reflexivity; try tauto.
Qed.

(** An empty body with facility 25: the message is what is reported. *)
Lemma validateConfig_first_failure_witness :
  snd (validateConfig (NewSyslogClient emptyBodyConfig))
  = Some ErrMessageRequired.
Proof.
  apply (proj1 (validateConfig_first_failure (NewSyslogClient emptyBodyConfig))).
  reflexivity.
Defined.

(** Claim C8.  [validateConfig] writes to no field but [Transport]: when it
    succeeds, [Transport] is the lower case of what it was and the seven
    other fields are as before; when it fails, the whole configuration,
    [Transport] included, is as before. *)
Theorem validateConfig_frame s :
  (snd (validateConfig s) = None ->
   Transport (config (fst (validateConfig s)))
   = strings.ToLower (Transport (config s))
   /\ Address (config (fst (validateConfig s))) = Address (config s)
   /\ Port (config (fst (validateConfig s))) = Port (config s)
   /\ Facility (config (fst (validateConfig s))) = Facility (config s)
   /\ Severity (config (fst (validateConfig s))) = Severity (config s)
   /\ Message (config (fst (validateConfig s))) = Message (config s)
   /\ Hostname (config (fst (validateConfig s))) = Hostname (config s)
   /\ Program (config (fst (validateConfig s))) = Program (config s))
  /\ (forall e,
        snd (validateConfig s) = Some e -> fst (validateConfig s) = s).
Proof.
  destruct (validateConfig_Validated s); cbn [fst snd]; split;
    intros; try discriminate; try reflexivity.
  cbn. repeat split.
Qed.

(** The sample configuration comes out with "udp" for "UDP" and the same
    port, and the configuration with the empty body comes out as it went
    in. *)
Lemma validateConfig_frame_witness :
  (Transport (config (fst (validateConfig (NewSyslogClient sampleConfig))))
   = "udp"
   /\ Port (config (fst (validateConfig (NewSyslogClient sampleConfig))))
      = 514)
  /\ fst (validateConfig (NewSyslogClient emptyBodyConfig))
     = NewSyslogClient emptyBodyConfig.
Proof.
  split.
  - destruct (proj1 (validateConfig_frame (NewSyslogClient sampleConfig))
                eq_refl) as (Ht & _ & Hp & _).
    split; [exact Ht | exact Hp].
  - apply (proj2 (validateConfig_frame (NewSyslogClient emptyBodyConfig))
             ErrMessageRequired).
    reflexivity.
Defined.

(** ** Rendering *)

Lemma wrap_small z :
  - 2 ^ 63 <= z < 2 ^ 63 -> goint.wrap z = z.
Proof.
  intros H. unfold goint.wrap, goint.bits.
  change (64 - 1) with 63.
  change (2 ^ 64) with (2 * 2 ^ 63).
  rewrite Z.mod_small; lia.
Qed.

Lemma priorityOf_in_range c :
  0 <= Facility c <= 23 -> 0 <= Severity c <= 7 ->
  priorityOf c = Facility c * 8 + Severity c.
Proof.
  intros Hf Hs. unfold priorityOf, goint.add, goint.mul.
  assert (2 ^ 63 = 9223372036854775808) as E by reflexivity.
  rewrite (wrap_small (Facility c * 8)) by lia.
  apply wrap_small. lia.
Qed.

Lemma prefix_nil s : prefix "" s = true.
Proof. destruct s; reflexivity. Qed.

(** One step of the replacement of spaces by hyphens. *)
Lemma ReplaceAll_space_cons c r :
  strings.ReplaceAll (String c r) " " "-"
  = String (if ascii_dec " " c then "-"%char else c)
      (strings.ReplaceAll r " " "-").
Proof.
  unfold strings.ReplaceAll.
  cbn [strings.replaceFrom prefix].
  destruct (ascii_dec " " c); [|reflexivity].
  rewrite prefix_nil. reflexivity.
Qed.

Lemma ReplaceAll_space_Hyphenated s :
  Hyphenated s (strings.ReplaceAll s " " "-").
Proof.
  induction s as [|c r (Hlen & Hsp & Hother)].
  - repeat split; intros; discriminate.
  - rewrite ReplaceAll_space_cons.
    split; [cbn [length]; now rewrite Hlen|].
    split.
    + intros [|i]; cbn [get].
      * intros E. injection E as ->.
        destruct (ascii_dec " " " "); [reflexivity | congruence].
      * apply Hsp.
    + intros [|i] x; cbn [get].
      * intros E Hx. injection E as ->.
        destruct (ascii_dec " " x); [congruence | reflexivity].
      * apply Hother.
Qed.

Lemma HostSource_total w s : exists host, HostSource w s host.
Proof.
  destruct (string_dec (Hostname (config s)) "") as [E|E].
  - destruct (osHostname w) as [name|e] eqn:Ho.
    + exists name. now apply HostSystem.
    + exists "localhost". now apply HostFallback with e.
  - eexists. now apply HostOverride.
Qed.

Lemma ProgramSource_total s : exists program, ProgramSource s program.
Proof.
  destruct (string_dec (Program (config s)) "") as [E|E].
  - exists "syslog-sender". now apply ProgramDefault.
  - eexists. now apply ProgramOverride.
Qed.

(** The line, spelled out for a host and a program of given origin. *)
Lemma formatMessage_line w s host program :
  HostSource w s host -> ProgramSource s program ->
  formatMessage w s
  = ("<" ++ strconv.Itoa (priorityOf (config s)) ++ ">"
       ++ gotime.Format (Now w) ++ " "
       ++ strings.ReplaceAll host " " "-" ++ " "
       ++ strings.ReplaceAll program " " "-" ++ ": "
       ++ Message (config s), None).
Proof.
  intros Hh Hp. unfold formatMessage.
  assert ((if negb (Hostname (config s) =? "")%string
           then Hostname (config s)
           else match osHostname w with
                | inl name => name
                | inr _ => "localhost"
                end) = host) as ->.
  { destruct Hh as [Hne|name He Ho|e He Ho].
    - apply String.eqb_neq in Hne. now rewrite Hne.
    - rewrite He, Ho. reflexivity.
    - rewrite He, Ho. reflexivity. }
  assert ((if negb (Program (config s) =? "")%string
           then Program (config s)
           else "syslog-sender") = program) as ->.
  { destruct Hp as [Hne|He].
    - apply String.eqb_neq in Hne. now rewrite Hne.
    - rewrite He. reflexivity. }
  reflexivity.
Qed.

(** The tag.  For a facility in 0..23 and a severity in 0..7 the line
    starts with "<", the decimal numeral of facility*8+severity without
    leading zeros, and ">", and what [time.Format] printed comes next; the
    number lies in 0..191. *)
Theorem formatMessage_priority_tag w s :
  0 <= Facility (config s) <= 23 ->
  0 <= Severity (config s) <= 7 ->
  exists numeral rest,
    fst (formatMessage w s)
    = "<" ++ numeral ++ ">" ++ gotime.Format (Now w) ++ rest
    /\ numeral
       = strconv.Itoa (Facility (config s) * 8 + Severity (config s))
    /\ DecimalNumeral numeral
         (Facility (config s) * 8 + Severity (config s))
    /\ 0 <= Facility (config s) * 8 + Severity (config s) <= 191.
Proof.
  intros Hf Hs.
  destruct (HostSource_total w s) as [host Hh].
  destruct (ProgramSource_total s) as [program Hp].
  rewrite (formatMessage_line w s host program Hh Hp).
  rewrite priorityOf_in_range by assumption.
  cbn [fst].
  eexists. eexists.
  split; [reflexivity|].
  split; [reflexivity|].
  split; [apply Itoa_DecimalNumeral; lia | lia].
Qed.

(** Facility 16 and severity 6: the tag is the numeral of 134. *)
Lemma formatMessage_priority_tag_witness :
  exists numeral rest,
    fst (formatMessage sampleWorld (NewSyslogClient sampleConfig))
    = "<" ++ numeral ++ ">" ++ gotime.Format sampleInstant ++ rest
    /\ numeral = "134"
    /\ DecimalNumeral numeral 134
    /\ 0 <= 134 <= 191.
Proof.
  apply (formatMessage_priority_tag sampleWorld (NewSyslogClient sampleConfig));
    cbn; lia.
Defined.

(** Claim C6.  Every space of the effective host and of the effective
    program, the interior ones among them, is a hyphen in the line, and the
    body follows verbatim, with its spaces; with facility 16, severity 6,
    host "test host name", program "test program" and body "test message"
    the line holds "<134>", "test-host-name", "test-program:" and
    "test message" in that order. *)
Theorem formatMessage_spaces_to_hyphens w s :
  (exists host program hostField programField,
     HostSource w s host /\ ProgramSource s program
     /\ fst (formatMessage w s)
        = "<" ++ strconv.Itoa (priorityOf (config s)) ++ ">"
            ++ gotime.Format (Now w) ++ " " ++ hostField ++ " "
            ++ programField ++ ": " ++ Message (config s)
     /\ Hyphenated host hostField
     /\ Hyphenated program programField)
  /\ (Facility (config s) = 16 ->
      Severity (config s) = 6 ->
      Hostname (config s) = "test host name" ->
      Program (config s) = "test program" ->
      Message (config s) = "test message" ->
      ContainsInOrder (fst (formatMessage w s))
        ["<134>"; "test-host-name"; "test-program:"; "test message"]).
Proof.
  split.
  - destruct (HostSource_total w s) as [host Hh].
    destruct (ProgramSource_total s) as [program Hp].
    exists host, program.
    exists (strings.ReplaceAll host " " "-").
    exists (strings.ReplaceAll program " " "-").
    rewrite (formatMessage_line w s host program Hh Hp).
    repeat split; try assumption; apply ReplaceAll_space_Hyphenated.
  - intros Hf Hs Hh Hp Hm.
    assert (HostSource w s "test host name") as Hhost.
    { rewrite <- Hh. apply HostOverride. rewrite Hh. discriminate. }
    assert (ProgramSource s "test program") as Hprog.
    { rewrite <- Hp. apply ProgramOverride. rewrite Hp. discriminate. }
    rewrite (formatMessage_line w s _ _ Hhost Hprog).
    rewrite priorityOf_in_range by lia.
    rewrite Hf, Hs, Hm.
    cbn [fst ContainsInOrder].
    exists "", (gotime.Format (Now w)
                  ++ " test-host-name test-program: test message").
    split; [reflexivity|].
    exists (gotime.Format (Now w) ++ " "), " test-program: test message".
    split; [rewrite append_assoc; reflexivity|].
    exists " ", " test message".
    split; [reflexivity|].
    exists " ", "".
    split; [reflexivity | exact I].
Qed.

(** The sample configuration is the one of the claim. *)
Lemma formatMessage_spaces_to_hyphens_witness :
  ContainsInOrder
    (fst (formatMessage sampleWorld (NewSyslogClient sampleConfig)))
    ["<134>"; "test-host-name"; "test-program:"; "test message"].
Proof.
  apply (proj2 (formatMessage_spaces_to_hyphens sampleWorld
                  (NewSyslogClient sampleConfig)));
    reflexivity.
Defined.

(** Claim C7.  The host of the line is the override when there is one, else
    the system's host name, else "localhost" when the lookup fails; the
    program is the override when there is one, else "syslog-sender"; and
    both have their spaces turned into hyphens before they are put in the
    line. *)
Theorem formatMessage_effective_identifiers w s :
  exists host program,
    fst (formatMessage w s)
    = "<" ++ strconv.Itoa (priorityOf (config s)) ++ ">"
        ++ gotime.Format (Now w) ++ " "
        ++ strings.ReplaceAll host " " "-" ++ " "
        ++ strings.ReplaceAll program " " "-" ++ ": "
        ++ Message (config s)
    /\ (Hostname (config s) <> "" -> host = Hostname (config s))
    /\ (forall name,
          Hostname (config s) = "" -> osHostname w = inl name ->
          host = name)
    /\ (forall e,
          Hostname (config s) = "" -> osHostname w = inr e ->
          host = "localhost")
    /\ (Program (config s) <> "" -> program = Program (config s))
    /\ (Program (config s) = "" -> program = "syslog-sender")
    /\ Hyphenated host (strings.ReplaceAll host " " "-")
    /\ Hyphenated program (strings.ReplaceAll program " " "-").
Proof.
  destruct (HostSource_total w s) as [host Hh].
  destruct (ProgramSource_total s) as [program Hp].
  exists host, program.
  rewrite (formatMessage_line w s host program Hh Hp).
  split; [reflexivity|].
  repeat split; try apply ReplaceAll_space_Hyphenated.
  - intros Hne. destruct Hh; congruence.
  - intros name He Ho. destruct Hh; congruence.
  - intros e He Ho. destruct Hh; congruence.
  - intros Hne. destruct Hp; congruence.
  - intros He. destruct Hp; congruence.
Qed.

(** Without overrides on a machine without a host name the line names
    "localhost" and "syslog-sender". *)
Lemma formatMessage_effective_identifiers_witness :
  fst (formatMessage isolatedWorld (NewSyslogClient plainConfig))
  = "<33>Nov  3 07:05:59 localhost syslog-sender: security alert".
Proof.
  destruct (formatMessage_effective_identifiers isolatedWorld
              (NewSyslogClient plainConfig))
    as (host & program & Hline & _ & _ & Hh & _ & Hp & _).
  rewrite Hline.
  rewrite (Hh "hostname: not available" eq_refl eq_refl), (Hp eq_refl).
  reflexivity.
Defined.

(** Claim C10.  The replacement reaches every space of the effective host
    and program, the first and the last byte included, whatever the origin
    of the value: an override, the system's host name, the fall-back or the
    default program; a byte that is not a space, a tab for one, stays as it
    is. *)
Theorem formatMessage_replaces_every_space w s :
  exists host program hostField programField,
    HostSource w s host /\ ProgramSource s program
    /\ fst (formatMessage w s)
       = "<" ++ strconv.Itoa (priorityOf (config s)) ++ ">"
           ++ gotime.Format (Now w) ++ " " ++ hostField ++ " "
           ++ programField ++ ": " ++ Message (config s)
    /\ length hostField = length host
    /\ length programField = length program
    /\ (forall i, get i host = Some " "%char ->
                  get i hostField = Some "-"%char)
    /\ (forall i, get i program = Some " "%char ->
                  get i programField = Some "-"%char)
    /\ (forall i c, get i host = Some c -> c <> " "%char ->
                    get i hostField = Some c)
    /\ (forall i c, get i program = Some c -> c <> " "%char ->
                    get i programField = Some c)
    /\ (forall i, get i host = Some tab -> get i hostField = Some tab)
    /\ (forall i, get i program = Some tab ->
                  get i programField = Some tab)
    /\ (forall name,
          Hostname (config s) = "" -> osHostname w = inl name ->
          host = name)
    /\ (Program (config s) = "" -> program = "syslog-sender").
Proof.
  destruct (HostSource_total w s) as [host Hh].
  destruct (ProgramSource_total s) as [program Hp].
  exists host, program.
  exists (strings.ReplaceAll host " " "-").
  exists (strings.ReplaceAll program " " "-").
  rewrite (formatMessage_line w s host program Hh Hp).
  destruct (ReplaceAll_space_Hyphenated host) as (Hl1 & Hs1 & Ho1).
  destruct (ReplaceAll_space_Hyphenated program) as (Hl2 & Hs2 & Ho2).
  repeat split; try assumption.
  - intros i Hi. apply (Ho1 i tab Hi). discriminate.
  - intros i Hi. apply (Ho2 i tab Hi). discriminate.
  - intros name He Ho. destruct Hh; congruence.
  - intros He. destruct Hp; congruence.
Qed.

(** The system's host name " a<tab>b ": the spaces at both ends come out as
    hyphens and the tab stays. *)
Lemma formatMessage_replaces_every_space_witness :
  exists hostField programField,
    fst (formatMessage paddedWorld (NewSyslogClient plainConfig))
    = "<33>Nov  3 07:05:59 " ++ hostField ++ " " ++ programField
        ++ ": security alert"
    /\ get 0 hostField = Some "-"%char
    /\ get 2 hostField = Some tab
    /\ get 4 hostField = Some "-"%char
    /\ length hostField = 5%nat
    /\ length programField = 13%nat.
Proof.
  destruct (formatMessage_replaces_every_space paddedWorld
              (NewSyslogClient plainConfig))
    as (host & program & hf & pf & _ & _ & Hline & Hl & Hlp & Hsp & _
        & _ & _ & Htab & _ & Hname & Hprog).
  specialize (Hname _ eq_refl eq_refl).
  specialize (Hprog eq_refl).
  subst host program.
  exists hf, pf.
  split; [rewrite Hline; reflexivity|].
  repeat split.
  - apply Hsp. reflexivity.
  - apply Htab. reflexivity.
  - apply Hsp. reflexivity.
  - exact Hl.
  - exact Hlp.
Defined.

(** ** Transmission *)

Lemma SendUDP_errors w s line e :
  snd (SendUDP w s line) = Some e -> transportError e = true.
Proof.
  unfold SendUDP.
  destruct (ResolveUDPAddr w "udp" (serverAddr s)) as [addr|err]; cbn.
  - destruct (DialUDP w "udp" addr) as [conn|err]; cbn.
    + destruct (connWrite w conn line); cbn; intros E;
        [injection E as <-; reflexivity | discriminate].
    + intros E. injection E as <-. reflexivity.
  - intros E. injection E as <-. reflexivity.
Qed.

Lemma SendTCP_errors w s line e :
  snd (SendTCP w s line) = Some e -> transportError e = true.
Proof.
  unfold SendTCP.
  destruct (DialTimeout w "tcp" (serverAddr s) 10) as [conn|err]; cbn.
  - destruct (connWrite w conn (line ++ newline)); cbn; intros E;
      [injection E as <-; reflexivity | discriminate].
  - intros E. injection E as <-. reflexivity.
Qed.

(** Claim C5, amended.  Once the socket is open the UDP transmitter hands
    [Write] the bytes of the line and nothing after them, and the TCP
    transmitter the bytes of the line followed by one newline, each exactly
    once, and returns what the write answers; when the address does not
    resolve or the socket does not open, the transmitter returns that error
    and nothing is written. *)
Theorem transmitters_write_once w s line :
  (forall addr conn,
     ResolveUDPAddr w "udp" (serverAddr s) = inl addr ->
     DialUDP w "udp" addr = inl conn ->
     writes (fst (SendUDP w s line)) = [(conn, line)]
     /\ snd (SendUDP w s line)
        = match connWrite w conn line with
          | Some err => Some (ErrSendUDP err)
          | None => None
          end)
  /\ (forall err,
        ResolveUDPAddr w "udp" (serverAddr s) = inr err ->
        writes (fst (SendUDP w s line)) = []
        /\ snd (SendUDP w s line) = Some (ErrResolveUDP (serverAddr s) err))
  /\ (forall addr err,
        ResolveUDPAddr w "udp" (serverAddr s) = inl addr ->
        DialUDP w "udp" addr = inr err ->
        writes (fst (SendUDP w s line)) = []
        /\ snd (SendUDP w s line) = Some (ErrConnectUDP err))
  /\ (forall conn,
        DialTimeout w "tcp" (serverAddr s) 10 = inl conn ->
        writes (fst (SendTCP w s line))
        = [(conn, line ++ String "010" "")]
        /\ snd (SendTCP w s line)
           = match connWrite w conn (line ++ String "010" "") with
             | Some err => Some (ErrSendTCP err)
             | None => None
             end)
  /\ (forall err,
        DialTimeout w "tcp" (serverAddr s) 10 = inr err ->
        writes (fst (SendTCP w s line)) = []
        /\ snd (SendTCP w s line) = Some (ErrConnectTCP err)).
Proof.
  unfold SendUDP, SendTCP.
  repeat apply conj.
  - intros addr conn -> Hd. cbn. rewrite Hd. cbn.
    destruct (connWrite w conn line); split; reflexivity.
  - intros err ->. split; reflexivity.
  - intros addr err -> Hd. cbn. rewrite Hd. split; reflexivity.
  - intros conn ->. cbn. fold newline.
    destruct (connWrite w conn (line ++ newline)); split; reflexivity.
  - intros err ->. split; reflexivity.
Qed.

(** On the sample machine each transmitter writes once and returns no
    error; the TCP buffer is the line and a newline. *)
Lemma transmitters_write_once_witness :
  (writes (fst (SendUDP sampleWorld (NewSyslogClient sampleConfig) "<134>x"))
   = [(3%nat, "<134>x")]
   /\ snd (SendUDP sampleWorld (NewSyslogClient sampleConfig) "<134>x") = None)
  /\ (writes (fst (SendTCP sampleWorld (NewSyslogClient sampleConfig) "<134>x"))
      = [(4%nat, "<134>x" ++ String "010" "")]
      /\ snd (SendTCP sampleWorld (NewSyslogClient sampleConfig) "<134>x")
         = None).
Proof.
  destruct (transmitters_write_once sampleWorld
              (NewSyslogClient sampleConfig) "<134>x")
    as (Hu & _ & _ & Ht & _).
  split.
  - apply (Hu "localhost:514"); reflexivity.
  - apply Ht. reflexivity.
Defined.

(** Claim C5 as stated fails: on a machine whose network refuses, an
    invocation of either transmitter performs no write at all. *)
Lemma transmitters_write_not_always_once :
  List.length (writes (fst (SendUDP isolatedWorld (NewSyslogClient sampleConfig)
                         "<134>x"))) <> 1%nat
  /\ List.length (writes (fst (SendTCP isolatedWorld (NewSyslogClient sampleConfig)
                            "<134>x"))) <> 1%nat.
Proof.
  split; vm_compute; discriminate.
Qed.

(** ** Dispatch *)

(** The result of a sequence is the result of its second part. *)
Lemma snd_bind {A B : Type} (m : IO A) (k : A -> IO B) :
  snd (x <- m ;; k x) = snd (k (snd m)).
Proof.
  unfold bind. destruct m as [t a]. cbn [snd].
  destruct (k a). reflexivity.
Qed.

(** Claim C9.  [formatMessage] never returns an error; hence, when
    validation succeeds, the transport left in the client is "udp" or
    "tcp", and [Send] returns neither its "failed to format message" error
    nor its "unsupported transport" error. *)
Theorem Send_unreachable_branches w s :
  snd (formatMessage w s) = None
  /\ (snd (validateConfig s) = None ->
      (Transport (config (fst (validateConfig s))) = "udp"
       \/ Transport (config (fst (validateConfig s))) = "tcp")
      /\ (forall cause,
            snd (snd (Send w s)) <> Some (ErrFormatMessage cause))
      /\ (forall transport,
            snd (snd (Send w s)) <> Some (ErrUnsupportedTransport transport))).
Proof.
  split; [reflexivity|].
  unfold Send.
  destruct (validateConfig_Validated s) as [| | | | |Hm Hf Hs Hp Ht];
    cbn [fst snd]; intros Hok; try discriminate.
  split; [exact Ht|].
  remember (setTransport s (strings.ToLower (Transport (config s)))) as s'.
  assert (Transport (config s') = strings.ToLower (Transport (config s)))
    as Htr by (subst s'; reflexivity).
  destruct (formatMessage w s') as [message ferr] eqn:Hfmt.
  assert (ferr = None) as -> by (injection Hfmt as _ <-; reflexivity).
  rewrite snd_bind, Htr.
  assert (forall e,
             snd (snd
                    (if (strings.ToLower (Transport (config s)) =? "udp")%string
                     then err <- SendUDP w s' message ;; ret (s', err)
                     else if (strings.ToLower (Transport (config s))
                              =? "tcp")%string
                     then err <- SendTCP w s' message ;; ret (s', err)
                     else ret (s', Some (ErrUnsupportedTransport
                                           (strings.ToLower
                                              (Transport (config s)))))))
             = Some e -> transportError e = true) as Hdispatch.
  { intros e.
    destruct Ht as [-> | ->]; cbn [String.eqb Ascii.eqb Bool.eqb];
      rewrite snd_bind; cbn [ret snd].
    - apply SendUDP_errors.
    - apply SendTCP_errors. }
  split; intros x Hx; apply Hdispatch in Hx; discriminate Hx.
Qed.

(** The sample configuration, spelled "UDP", is sent over UDP. *)
Lemma Send_unreachable_branches_witness :
  Transport (config (fst (validateConfig (NewSyslogClient sampleConfig))))
  = "udp"
  \/ Transport (config (fst (validateConfig (NewSyslogClient sampleConfig))))
     = "tcp".
Proof.
  apply (proj2 (Send_unreachable_branches sampleWorld
                  (NewSyslogClient sampleConfig))).
  reflexivity.
Defined.

(** ** The default port *)

(** What lines 250 to 253 make of the port: 601 for "tcp" when the flag was
    not passed, the default 514 for "udp", and the value passed when it is
    not 514 or the transport is not "tcp". *)
Lemma mainConfig_port cl :
  let transport := strings.ToLower (flagVar "udp" (flagTransport cl)) in
  (flagPort cl = None -> transport = "tcp" -> Port (mainConfig cl) = 601)
  /\ (flagPort cl = None -> transport <> "tcp" -> Port (mainConfig cl) = 514)
  /\ (forall p, flagPort cl = Some p -> p <> 514 ->
                Port (mainConfig cl) = p)
  /\ (forall p, flagPort cl = Some p -> transport <> "tcp" ->
                Port (mainConfig cl) = p)
  /\ (flagPort cl = Some 514 -> transport = "tcp" ->
      Port (mainConfig cl) = 601).
Proof.
  cbv zeta.
  unfold mainConfig, adjustPort, portFlagString, parsedConfig.
  cbn [Port Transport].
  repeat split.
  - intros -> ->. reflexivity.
  - intros -> Hne. apply String.eqb_neq in Hne. rewrite Hne.
    rewrite andb_false_r. reflexivity.
  - intros p -> Hne. cbn [flagVar].
    destruct (String.eqb_spec (strconv.Itoa p) "514") as [E|E].
    + apply Itoa_514 in E. contradiction.
    + reflexivity.
  - intros p -> Hne. apply String.eqb_neq in Hne. rewrite Hne.
    rewrite andb_false_r. reflexivity.
  - intros -> ->. reflexivity.
Qed.

(** Claim C1 at [-transport tcp -port 514 -message hi]: the caller passed
    port 514, the configuration handed to the client has port 601, and that
    is the port [main] dials. *)
Theorem mainConfig_explicit_514_tcp :
  flagPort tcpExplicit514 = Some 514
  /\ Port (mainConfig tcpExplicit514) = 601
  /\ In (EvDialTimeout "tcp" "localhost:601" 10)
       (fst (main sampleWorld tcpExplicit514)).
Proof.
  split; [reflexivity|].
  split; [reflexivity|].
  vm_compute. tauto.
Qed.

(** ** The course of a send *)

Lemma Send_invalid w s e :
  snd (validateConfig s) = Some e -> Send w s = ([], (s, Some e)).
Proof.
  unfold Send.
  destruct (validateConfig_Validated s); cbn [snd]; intros E;
    try discriminate; injection E as <-; reflexivity.
Qed.

Lemma bind_unfold {A B : Type} (m : IO A) (k : A -> IO B) :
  bind m k = ((fst m ++ fst (k (snd m)))%list, snd (k (snd m))).
Proof. unfold bind. destruct m as [t a]. cbn. destruct (k a). reflexivity. Qed.

(** A valid configuration is sent by one of the two transmitters, with the
    line [formatMessage] renders for the validated client; what comes
    before is output on the standard stream, and there is none unless
    SYSLOG_DEBUG is "1". *)
Lemma Send_valid w s :
  snd (validateConfig s) = None ->
  exists pre,
    forallb isStdout pre = true
    /\ ((Getenv w "SYSLOG_DEBUG" =? "1")%string = false -> pre = [])
    /\ ((Transport (config (fst (validateConfig s))) = "udp"
         /\ Send w s
            = ((pre ++ fst (SendUDP w (fst (validateConfig s))
                              (fst (formatMessage w (fst (validateConfig s))))))%list,
               (fst (validateConfig s),
                snd (SendUDP w (fst (validateConfig s))
                       (fst (formatMessage w (fst (validateConfig s))))))))
        \/ (Transport (config (fst (validateConfig s))) = "tcp"
            /\ Send w s
               = ((pre ++ fst (SendTCP w (fst (validateConfig s))
                                 (fst (formatMessage w (fst (validateConfig s))))))%list,
                  (fst (validateConfig s),
                   snd (SendTCP w (fst (validateConfig s))
                          (fst (formatMessage w (fst (validateConfig s))))))))).
Proof.
  unfold Send.
  destruct (validateConfig_Validated s) as [| | | | |Hm Hf Hs Hp Ht];
    cbn [fst snd]; intros Hok; try discriminate.
  remember (setTransport s (strings.ToLower (Transport (config s)))) as s'.
  assert (Transport (config s') = strings.ToLower (Transport (config s)))
    as Htr by (subst s'; reflexivity).
  change (formatMessage w s') with (fst (formatMessage w s'), @None error).
  cbv iota beta.
  remember (fst (formatMessage w s')) as line.
  rewrite Htr.
  exists (fst (if (Getenv w "SYSLOG_DEBUG" =? "1")%string
               then
                 emit (EvStdout ("Debug: Sending message: " ++ line ++ newline)) ;;;
                 emit (EvStdout ("Debug: Target: " ++ serverAddr s' ++ " ("
                                   ++ strings.ToLower (Transport (config s))
                                   ++ ")" ++ newline))
               else ret tt)).
  split; [destruct (Getenv w "SYSLOG_DEBUG" =? "1")%string; reflexivity|].
  split; [intros ->; reflexivity|].
  destruct (if (Getenv w "SYSLOG_DEBUG" =? "1")%string then _ else _)
    as [pre []].
  rewrite bind_unfold. cbn [fst snd].
  destruct Ht as [E|E]; rewrite E; [left|right]; (split; [reflexivity|]);
    cbn [String.eqb Ascii.eqb Bool.eqb];
    rewrite bind_unfold; cbn [ret fst snd]; rewrite app_nil_r; reflexivity.
Qed.

(** The trace of the UDP transmitter, by the answers of the network. *)
Lemma SendUDP_trace w s line :
  fst (SendUDP w s line)
  = EvResolve "udp" (serverAddr s)
      :: match ResolveUDPAddr w "udp" (serverAddr s) with
         | inr _ => []
         | inl a =>
             EvDialUDP "udp" a
               :: match DialUDP w "udp" a with
                  | inr _ => []
                  | inl c =>
                      [EvSetWriteDeadline c 5; EvWrite c line; EvClose c]
                  end
         end.
Proof.
  unfold SendUDP.
  destruct (ResolveUDPAddr w "udp" (serverAddr s)) as [a|err]; cbn;
    [|reflexivity].
  destruct (DialUDP w "udp" a) as [c|err]; cbn; [|reflexivity].
  destruct (connWrite w c line); reflexivity.
Qed.

Lemma SendTCP_trace w s line :
  fst (SendTCP w s line)
  = EvDialTimeout "tcp" (serverAddr s) 10
      :: match DialTimeout w "tcp" (serverAddr s) 10 with
         | inr _ => []
         | inl c =>
             [EvSetWriteDeadline c 5; EvWrite c (line ++ newline); EvClose c]
         end.
Proof.
  unfold SendTCP.
  destruct (DialTimeout w "tcp" (serverAddr s) 10) as [c|err]; cbn;
    [|reflexivity].
  destruct (connWrite w c (line ++ newline)); reflexivity.
Qed.

Lemma serverAddr_validated s :
  serverAddr (fst (validateConfig s)) = serverAddr s.
Proof.
  destruct (validateConfig_Validated s); reflexivity.
Qed.

Lemma formatMessage_validated w s :
  formatMessage w (fst (validateConfig s)) = formatMessage w s.
Proof.
  destruct (validateConfig_Validated s); reflexivity.
Qed.

Lemma run_stdout target pre t :
  forallb isStdout pre = true ->
  run target Idle (pre ++ t) = run target Idle t.
Proof.
  induction pre as [|e pre IH]; cbn [forallb app]; [reflexivity|].
  intros H. apply andb_true_iff in H. destruct H as [He Hpre].
  destruct e; try discriminate. cbn [run step]. apply IH, Hpre.
Qed.

Lemma writes_app t1 t2 : writes (t1 ++ t2) = (writes t1 ++ writes t2)%list.
Proof.
  induction t1 as [|e t1 IH]; [reflexivity|].
  destruct e; cbn [app writes]; rewrite ?IH; reflexivity.
Qed.

Lemma stdout_no_network pre :
  forallb isStdout pre = true -> network pre = [] /\ writes pre = [].
Proof.
  induction pre as [|e pre IH]; cbn [forallb]; [split; reflexivity|].
  intros H. apply andb_true_iff in H. destruct H as [He Hpre].
  destruct e; try discriminate. cbn. apply IH, Hpre.
Qed.

(** Running the machine over a trace whose events are known. *)
Ltac run_steps :=
  repeat (cbn [run step andb];
          rewrite ?String.eqb_refl, ?Z.eqb_refl, ?Nat.eqb_refl).

(** Every trace of [Send], whatever the configuration and the network,
    follows the course of one attempt towards [Address:Port]: at most one
    resolution and one dial, a write only after a deadline of five seconds
    was set on the same connection, a close right after the write, and
    nothing after that. *)
Theorem Send_follows_protocol w s :
  conforms (serverAddr s) (fst (Send w s)) = true.
Proof.
  destruct (snd (validateConfig s)) as [e|] eqn:Hv.
  - rewrite (Send_invalid w s e Hv). reflexivity.
  - destruct (Send_valid w s Hv) as (pre & Hpre & _ & [[_ ->]|[_ ->]]);
      cbn [fst]; unfold conforms; rewrite run_stdout by exact Hpre.
    + rewrite SendUDP_trace, ?serverAddr_validated.
      destruct (ResolveUDPAddr w "udp" (serverAddr s)) as [a|err];
        [destruct (DialUDP w "udp" a) as [c|err]|]; run_steps; reflexivity.
    + rewrite SendTCP_trace, ?serverAddr_validated.
      destruct (DialTimeout w "tcp" (serverAddr s) 10) as [c|err];
        run_steps; reflexivity.
Qed.

(** A connection a transmitter has opened is closed by it, once and as its
    last act, also when the write fails; a transmitter that opened none
    closes none. *)
Theorem transmitters_close_what_they_open w s line :
  (forall a c,
     ResolveUDPAddr w "udp" (serverAddr s) = inl a ->
     DialUDP w "udp" a = inl c ->
     closes (fst (SendUDP w s line)) = [c]
     /\ last (fst (SendUDP w s line)) EvUsage = EvClose c
     /\ (forall err, connWrite w c line = Some err ->
                     snd (SendUDP w s line) = Some (ErrSendUDP err)))
  /\ (forall c,
        DialTimeout w "tcp" (serverAddr s) 10 = inl c ->
        closes (fst (SendTCP w s line)) = [c]
        /\ last (fst (SendTCP w s line)) EvUsage = EvClose c
        /\ (forall err, connWrite w c (line ++ newline) = Some err ->
                        snd (SendTCP w s line) = Some (ErrSendTCP err)))
  /\ (forall err,
        ResolveUDPAddr w "udp" (serverAddr s) = inr err ->
        closes (fst (SendUDP w s line)) = [])
  /\ (forall a err,
        ResolveUDPAddr w "udp" (serverAddr s) = inl a ->
        DialUDP w "udp" a = inr err ->
        closes (fst (SendUDP w s line)) = [])
  /\ (forall err,
        DialTimeout w "tcp" (serverAddr s) 10 = inr err ->
        closes (fst (SendTCP w s line)) = []).
Proof.
  rewrite SendUDP_trace, SendTCP_trace.
  split; [|split; [|split; [|split]]].
  - intros a c Hr Hd. rewrite Hr, Hd.
    split; [reflexivity|]. split; [reflexivity|].
    intros err Hw. unfold SendUDP. rewrite Hr. cbn. rewrite Hd. cbn.
    rewrite Hw. reflexivity.
  - intros c Hd. rewrite Hd.
    split; [reflexivity|]. split; [reflexivity|].
    intros err Hw. unfold SendTCP. rewrite Hd. cbn. rewrite Hw.
    reflexivity.
  - intros err Hr. rewrite Hr. reflexivity.
  - intros a err Hr Hd. rewrite Hr, Hd. reflexivity.
  - intros err Hd. rewrite Hd. reflexivity.
Qed.

(** On a machine whose writes fail, both transmitters still close. *)
Lemma transmitters_close_what_they_open_witness :
  (closes (fst (SendUDP brokenPipeWorld (NewSyslogClient sampleConfig)
                  "<134>x")) = [3%nat]
   /\ snd (SendUDP brokenPipeWorld (NewSyslogClient sampleConfig) "<134>x")
      = Some (ErrSendUDP "broken pipe"))
  /\ closes (fst (SendTCP brokenPipeWorld (NewSyslogClient sampleConfig)
                    "<134>x")) = [4%nat].
Proof.
  destruct (transmitters_close_what_they_open brokenPipeWorld
              (NewSyslogClient sampleConfig) "<134>x")
    as (Hu & Ht & _).
  split.
  - destruct (Hu "localhost:514" 3%nat eq_refl eq_refl) as (Hc & _ & He).
    split; [exact Hc | apply He; reflexivity].
  - apply Ht. reflexivity.
Defined.

Lemma validateConfig_ok s :
  Message (config s) <> "" ->
  0 <= Facility (config s) <= 23 ->
  0 <= Severity (config s) <= 7 ->
  1 <= Port (config s) <= 65535 ->
  strings.ToLower (Transport (config s)) = "udp"
  \/ strings.ToLower (Transport (config s)) = "tcp" ->
  validateConfig s
  = (setTransport s (strings.ToLower (Transport (config s))), None).
Proof.
  intros Hm Hf Hs Hp Ht.
  destruct (validateConfig_Validated s); try reflexivity;
    try contradiction; tauto.
Qed.

Lemma validateConfig_error_kind s e :
  snd (validateConfig s) = Some e ->
  configError e = true /\ transportError e = false.
Proof.
  destruct (validateConfig_Validated s); cbn [snd]; intros E;
    try discriminate; injection E as <-; split; reflexivity.
Qed.

(** Validating a second time changes nothing: the client a validation
    leaves behind validates to itself with the same outcome. *)
Theorem validateConfig_idempotent s :
  validateConfig (fst (validateConfig s)) = validateConfig s.
Proof.
  pose proof (validateConfig_Validated s) as H.
  destruct (validateConfig s) as [s1 r] eqn:E.
  inversion H as [| | | | |Hm Hf Hs Hp Ht]; subst; cbn [fst];
    try exact E.
  assert (strings.ToLower (strings.ToLower (Transport (config s)))
          = strings.ToLower (Transport (config s))) as Hl
    by (destruct Ht as [-> | ->]; reflexivity).
  rewrite validateConfig_ok; cbn [config setTransport Message Facility
                                    Severity Port Transport];
    try assumption.
  - rewrite Hl. reflexivity.
  - rewrite Hl. exact Ht.
Qed.

(** The line depends on the facility, the severity, the body and the two
    overrides only: clients that agree on these are rendered alike,
    whatever their address, port and transport. *)
Theorem formatMessage_ignores_target w s1 s2 :
  Facility (config s1) = Facility (config s2) ->
  Severity (config s1) = Severity (config s2) ->
  Message (config s1) = Message (config s2) ->
  Hostname (config s1) = Hostname (config s2) ->
  Program (config s1) = Program (config s2) ->
  formatMessage w s1 = formatMessage w s2.
Proof.
  intros Hf Hs Hm Hh Hp.
  unfold formatMessage, priorityOf.
  rewrite Hf, Hs, Hm, Hh, Hp. reflexivity.
Qed.

(** The sample configuration renders alike before and after validation,
    which turns its transport "UDP" into "udp". *)
Lemma formatMessage_ignores_target_witness :
  formatMessage sampleWorld
    (fst (validateConfig (NewSyslogClient sampleConfig)))
  = formatMessage sampleWorld (NewSyslogClient sampleConfig).
Proof.
  apply formatMessage_ignores_target; reflexivity.
Defined.

(** An error of [Send] is of one of two kinds.  An error of validation is
    returned as validation made it, before anything was printed or sent
    and with the client untouched.  Every other error is an error of the
    transmitter, and the network was tried before it arose. *)
Theorem Send_error_taxonomy w s e :
  snd (snd (Send w s)) = Some e ->
  (configError e = true /\ transportError e = false
   /\ snd (validateConfig s) = Some e
   /\ fst (Send w s) = [] /\ fst (snd (Send w s)) = s)
  \/ (transportError e = true /\ configError e = false
      /\ snd (validateConfig s) = None
      /\ network (fst (Send w s)) <> []).
Proof.
  destruct (snd (validateConfig s)) as [e0|] eqn:Hv.
  - rewrite (Send_invalid w s e0 Hv). cbn [fst snd].
    intros E. injection E as <-. left.
    destruct (validateConfig_error_kind s e0 Hv) as [Hc Ht].
    repeat split; assumption.
  - intros He. right.
    destruct (Send_valid w s Hv) as (pre & Hpre & _ & [[_ E]|[_ E]]);
      rewrite E in He |- *; cbn [fst snd] in He |- *.
    + pose proof (SendUDP_errors _ _ _ _ He) as Ht.
      split; [exact Ht|]. split; [destruct e; try discriminate; reflexivity|].
      split; [reflexivity|].
      unfold network. rewrite filter_app, SendUDP_trace. cbn [filter isNetwork].
      intros Habs. apply app_eq_nil in Habs. destruct Habs; discriminate.
    + pose proof (SendTCP_errors _ _ _ _ He) as Ht.
      split; [exact Ht|]. split; [destruct e; try discriminate; reflexivity|].
      split; [reflexivity|].
      unfold network. rewrite filter_app, SendTCP_trace. cbn [filter isNetwork].
      intros Habs. apply app_eq_nil in Habs. destruct Habs; discriminate.
Qed.

(** A refused connection is a transport error; a facility out of range is
    a configuration error. *)
Lemma Send_error_taxonomy_witness :
  (transportError (ErrResolveUDP "localhost:514" "no such host") = true
   /\ snd (validateConfig (NewSyslogClient sampleConfig)) = None)
  /\ (configError ErrMessageRequired = true
      /\ fst (Send isolatedWorld (NewSyslogClient emptyBodyConfig)) = []).
Proof.
  split.
  - destruct (Send_error_taxonomy isolatedWorld (NewSyslogClient sampleConfig)
                (ErrResolveUDP "localhost:514" "no such host") eq_refl)
      as [(Hc & _)|(Ht & _ & Hv & _)]; [discriminate Hc|].
    split; [exact Ht | exact Hv].
  - destruct (Send_error_taxonomy isolatedWorld
                (NewSyslogClient emptyBodyConfig) ErrMessageRequired eq_refl)
      as [(Hc & _ & _ & Ht & _)|(Ht & _)]; [|discriminate Ht].
    split; [exact Hc | exact Ht].
Defined.

Lemma network_app t1 t2 : network (t1 ++ t2) = (network t1 ++ network t2)%list.
Proof. apply filter_app. Qed.

Lemma SendUDP_network w s line :
  network (fst (SendUDP w s line)) = fst (SendUDP w s line).
Proof.
  rewrite SendUDP_trace.
  destruct (ResolveUDPAddr w "udp" (serverAddr s)) as [a|err];
    [destruct (DialUDP w "udp" a) as [c|err]|]; reflexivity.
Qed.

Lemma SendTCP_network w s line :
  network (fst (SendTCP w s line)) = fst (SendTCP w s line).
Proof.
  rewrite SendTCP_trace.
  destruct (DialTimeout w "tcp" (serverAddr s) 10) as [c|err]; reflexivity.
Qed.

(** The network events of a valid send are those of the transmitter. *)
Lemma Send_network w s :
  snd (validateConfig s) = None ->
  (Transport (config (fst (validateConfig s))) = "udp"
   /\ network (fst (Send w s))
      = fst (SendUDP w (fst (validateConfig s)) (fst (formatMessage w s)))
   /\ snd (Send w s)
      = (fst (validateConfig s),
         snd (SendUDP w (fst (validateConfig s)) (fst (formatMessage w s)))))
  \/ (Transport (config (fst (validateConfig s))) = "tcp"
      /\ network (fst (Send w s))
         = fst (SendTCP w (fst (validateConfig s)) (fst (formatMessage w s)))
      /\ snd (Send w s)
         = (fst (validateConfig s),
            snd (SendTCP w (fst (validateConfig s))
                   (fst (formatMessage w s))))).
Proof.
  intros Hv.
  destruct (Send_valid w s Hv) as (pre & Hpre & _ & [[Ht E]|[Ht E]]);
    rewrite E; cbn [fst snd]; rewrite network_app;
    rewrite (proj1 (stdout_no_network pre Hpre));
    rewrite formatMessage_validated; cbn [app]; [left|right];
    rewrite ?SendUDP_network, ?SendTCP_network; repeat split; assumption.
Qed.

(** SYSLOG_DEBUG changes what is printed and nothing else: under any
    environment [Send] does the same to the network and returns the same;
    and unless the variable is "1" the trace holds network events only. *)
Theorem Send_debug_only_adds_output w g s :
  network (fst (Send (withGetenv w g) s)) = network (fst (Send w s))
  /\ snd (Send (withGetenv w g) s) = snd (Send w s)
  /\ ((g "SYSLOG_DEBUG" =? "1")%string = false ->
      fst (Send (withGetenv w g) s) = network (fst (Send w s))).
Proof.
  destruct (snd (validateConfig s)) as [e|] eqn:Hv.
  - rewrite !(Send_invalid _ s e Hv). repeat split.
  - destruct (Send_network w s Hv) as [(Ht & Hn & Hr)|(Ht & Hn & Hr)];
      destruct (Send_network (withGetenv w g) s Hv)
        as [(Ht' & Hn' & Hr')|(Ht' & Hn' & Hr')];
      try congruence;
      rewrite Hn, Hn', Hr, Hr';
      (split; [reflexivity|]); (split; [reflexivity|]);
      intros Hg;
      destruct (Send_valid (withGetenv w g) s Hv)
        as (pre & _ & Hoff & [[Ht2 E]|[Ht2 E]]);
      try congruence;
      rewrite E, (Hoff Hg), formatMessage_validated; reflexivity.
Qed.

Lemma writes_network t : writes (network t) = writes t.
Proof.
  unfold network.
  induction t as [|e t IH]; [reflexivity|].
  destruct e; cbn [filter isNetwork writes]; rewrite ?IH; reflexivity.
Qed.

Lemma validated_transport s :
  snd (validateConfig s) = None ->
  Transport (config (fst (validateConfig s)))
  = strings.ToLower (Transport (config s)).
Proof.
  destruct (validateConfig_Validated s); cbn [snd fst]; intros E;
    try discriminate; reflexivity.
Qed.

(** Whatever [Send] hands to [Write] is the rendered line of the
    configuration, as it is for a spelling of "udp" and with one newline
    after it for a spelling of "tcp"; it is the only buffer written, and
    nothing is written for a configuration that does not validate. *)
Theorem Send_writes_rendered_line w s c data :
  In (c, data) (writes (fst (Send w s))) ->
  snd (validateConfig s) = None
  /\ writes (fst (Send w s)) = [(c, data)]
  /\ ((In (Transport (config s)) udpSpellings
       /\ data = fst (formatMessage w s))
      \/ (In (Transport (config s)) tcpSpellings
          /\ data = fst (formatMessage w s) ++ String "010" "")).
Proof.
  destruct (snd (validateConfig s)) as [e|] eqn:Hv.
  - rewrite (Send_invalid w s e Hv). intros [].
  - rewrite <- writes_network.
    rewrite <- ToLower_udp, <- ToLower_tcp, <- (validated_transport s Hv).
    destruct (Send_network w s Hv) as [(Ht & -> & _)|(Ht & -> & _)].
    + rewrite SendUDP_trace.
      destruct (ResolveUDPAddr w "udp" _) as [a|err];
        [destruct (DialUDP w "udp" a) as [c'|err]|]; cbn [writes In];
        intros Hin; try tauto.
      destruct Hin as [E|[]]. injection E as <- <-.
      split; [reflexivity|]. split; [reflexivity|]. left. now split.
    + rewrite SendTCP_trace.
      destruct (DialTimeout w "tcp" _ 10) as [c'|err]; cbn [writes In];
        intros Hin; try tauto.
      destruct Hin as [E|[]]. injection E as <- <-.
      split; [reflexivity|]. split; [reflexivity|]. right. now split.
Qed.

(** The sample configuration, spelled "UDP": one datagram with the line. *)
Lemma Send_writes_rendered_line_witness :
  writes (fst (Send sampleWorld (NewSyslogClient sampleConfig)))
  = [(3%nat, "<134>Nov  3 07:05:59 test-host-name test-program: test message")].
Proof.
  apply (Send_writes_rendered_line sampleWorld (NewSyslogClient sampleConfig)).
  left. reflexivity.
Defined.

(** ** The priority tag read back *)

(** For a facility in 0..23 and a severity in 0..7 the priority is read
    back by division: the quotient by 8 is the facility and the remainder
    the severity, so configurations with the same tag have the same
    facility and the same severity. *)
Theorem priorityOf_decodes c :
  0 <= Facility c <= 23 ->
  0 <= Severity c <= 7 ->
  priorityOf c / 8 = Facility c
  /\ priorityOf c mod 8 = Severity c
  /\ (forall c',
        0 <= Facility c' <= 23 -> 0 <= Severity c' <= 7 ->
        priorityOf c' = priorityOf c ->
        Facility c' = Facility c /\ Severity c' = Severity c).
Proof.
  intros Hf Hs.
  rewrite priorityOf_in_range by assumption.
  assert (forall f s, 0 <= s <= 7 -> (f * 8 + s) / 8 = f /\ (f * 8 + s) mod 8 = s)
    as Hdec.
  { intros f s H. rewrite Z.add_comm, Z.div_add, Z.mod_add by lia.
    rewrite Z.div_small, Z.mod_small by lia. split; reflexivity. }
  destruct (Hdec (Facility c) (Severity c) Hs) as [Hq Hr].
  split; [exact Hq|]. split; [exact Hr|].
  intros c' Hf' Hs' E.
  rewrite priorityOf_in_range in E by assumption.
  destruct (Hdec (Facility c') (Severity c') Hs') as [Hq' Hr'].
  rewrite E in Hq', Hr'. split; congruence.
Qed.

(** Priority 134 is facility 16 with severity 6. *)
Lemma priorityOf_decodes_witness :
  priorityOf sampleConfig / 8 = 16 /\ priorityOf sampleConfig mod 8 = 6.
Proof.
  destruct (priorityOf_decodes sampleConfig) as (Hq & Hr & _);
    [cbn; lia | cbn; lia |].
  split; [exact Hq | exact Hr].
Defined.

(** ** The fields of the header *)

Lemma ReplaceAll_space_no_space s :
  forall i, get i (strings.ReplaceAll s " " "-") <> Some " "%char.
Proof.
  induction s as [|c r IH]; intros i.
  - destruct i; discriminate.
  - rewrite ReplaceAll_space_cons.
    destruct i as [|i]; cbn [get]; [|apply IH].
    destruct (ascii_dec " " c) as [E|E]; [discriminate|].
    intros H. injection H as ->. now apply E.
Qed.

(** In the line the host and the program hold no space, whatever the
    overrides and the system's host name hold. *)
Theorem formatMessage_fields_without_space w s :
  exists hostField programField,
    fst (formatMessage w s)
    = "<" ++ strconv.Itoa (priorityOf (config s)) ++ ">"
        ++ gotime.Format (Now w) ++ " " ++ hostField ++ " "
        ++ programField ++ ": " ++ Message (config s)
    /\ (forall i, get i hostField <> Some " "%char)
    /\ (forall i, get i programField <> Some " "%char).
Proof.
  destruct (HostSource_total w s) as [host Hh].
  destruct (ProgramSource_total s) as [program Hp].
  exists (strings.ReplaceAll host " " "-").
  exists (strings.ReplaceAll program " " "-").
  rewrite (formatMessage_line w s host program Hh Hp).
  split; [reflexivity|].
  split; apply ReplaceAll_space_no_space.
Qed.

(** ** The timestamp *)

Lemma Digits_below_10 u s :
  Digits u s -> 0 <= u < 10 -> s = String (strconv.digit u) "".
Proof.
  intros H Hu. inversion H; subst; [reflexivity | lia].
Qed.

Lemma Digits_below_100 u s :
  Digits u s -> 10 <= u < 100 ->
  s = String (strconv.digit (u / 10)) (String (strconv.digit (u mod 10)) "").
Proof.
  intros H Hu. inversion H as [|u' s' Hge Hd]; subst; [lia|].
  assert (0 <= u / 10 < 10) as Hq.
  { split; [apply Z.div_pos; lia | apply Z.div_lt_upper_bound; lia]. }
  rewrite (Digits_below_10 _ _ Hd Hq). reflexivity.
Qed.

Lemma Itoa_below_10 x :
  0 <= x < 10 -> strconv.Itoa x = String (strconv.digit x) "".
Proof.
  intros H. rewrite Itoa_nonneg by lia.
  apply Digits_below_10; [apply FormatUint_Digits; lia | exact H].
Qed.

Lemma Itoa_below_100 x :
  10 <= x < 100 ->
  strconv.Itoa x
  = String (strconv.digit (x / 10)) (String (strconv.digit (x mod 10)) "").
Proof.
  intros H. rewrite Itoa_nonneg by lia.
  apply Digits_below_100; [apply FormatUint_Digits; lia | exact H].
Qed.


(** ** The process *)

(** What follows [Send] in [main] prints and sets the exit status. *)
Lemma main_after_Send w cl (r : SyslogClient * option error) :
  let config := adjustPort (parsedConfig cl) in
  let k :=
    match snd r with
    | Some err =>
        emit (EvStderr ("Failed to send syslog message: " ++ Error err)) ;;;
        ret 1
    | None =>
        (if (Getenv w "SYSLOG_DEBUG" =? "1")%string
         then
           emit (EvStdout ("Message sent successfully to " ++ Address config
                             ++ ":" ++ strconv.Itoa (Port config) ++ " via "
                             ++ strings.ToUpper (Transport config) ++ newline))
         else ret tt) ;;;
        ret 0
    end in
  network (fst k) = []
  /\ snd k = match snd r with Some _ => 1 | None => 0 end.
Proof.
  cbv zeta.
  destruct (snd r) as [err|].
  - split; reflexivity.
  - destruct (Getenv w "SYSLOG_DEBUG" =? "1")%string; split; reflexivity.
Qed.

(** After a command line that parsed, the exit status is 0 or 1.  It is 0
    exactly when the version or the help was asked for, or a body was given
    and [Send] returned no error.  The network is touched only when neither
    was asked for, a body was given and the configuration validates; what
    then happens on the network is what [Send] does. *)
Lemma main_exit_status w cl :
  (snd (main w cl) = 0 \/ snd (main w cl) = 1)
  /\ (snd (main w cl) = 0 <->
      flagVar false (flagVersion cl) = true
      \/ flagVar false (flagHelp cl) = true
      \/ (Message (parsedConfig cl) <> ""
          /\ snd (snd (Send w (NewSyslogClient (mainConfig cl)))) = None))
  /\ (network (fst (main w cl)) <> [] ->
      flagVar false (flagVersion cl) = false
      /\ flagVar false (flagHelp cl) = false
      /\ Message (parsedConfig cl) <> ""
      /\ snd (validateConfig (NewSyslogClient (mainConfig cl))) = None
      /\ network (fst (main w cl))
         = network (fst (Send w (NewSyslogClient (mainConfig cl))))).
Proof.
  unfold main, mainConfig.
  destruct (flagVar false (flagVersion cl)).
  { split; [left; reflexivity|]. split; [|intros H; now elim H].
    split; [intros _; now left | reflexivity]. }
  destruct (flagVar false (flagHelp cl)).
  { split; [left; reflexivity|]. split; [|intros H; now elim H].
    split; [intros _; right; now left | reflexivity]. }
  destruct (String.eqb_spec (Message (parsedConfig cl)) "") as [Hm|Hm].
  { split; [right; reflexivity|]. split; [|intros H; now elim H].
    split; [discriminate|].
    intros [H|[H|[H _]]]; [discriminate | discriminate | contradiction]. }
  rewrite bind_unfold. cbn [fst snd].
  destruct (main_after_Send w cl
              (snd (Send w (NewSyslogClient (adjustPort (parsedConfig cl))))))
    as [Hnet Hstatus].
  cbv zeta in Hnet, Hstatus.
  rewrite Hstatus, network_app, Hnet, app_nil_r.
  split.
  { destruct (snd (snd (Send w _))); [right | left]; reflexivity. }
  split.
  { destruct (snd (snd (Send w _))) as [err|].
    - split; [discriminate|].
      intros [H|[H|[_ H]]]; discriminate.
    - split; [|reflexivity]. intros _. right. right. now split. }
  intros Hn.
  repeat split; try assumption.
  destruct (snd (validateConfig
                   (NewSyslogClient (adjustPort (parsedConfig cl)))))
    as [e|] eqn:Hv; [|reflexivity].
  rewrite (Send_invalid w _ e Hv) in Hn. now elim Hn.
Qed.

(** ** The target *)

Lemma FormatUint_inj a b :
  0 <= a -> 0 <= b ->
  strconv.FormatUint a = strconv.FormatUint b -> a = b.
Proof.
  intros Ha Hb E.
  rewrite <- (Digits_value _ _ (FormatUint_Digits a Ha)).
  rewrite <- (Digits_value _ _ (FormatUint_Digits b Hb)).
  now rewrite E.
Qed.

Lemma FormatUint_allDigits a : 0 <= a -> allDigits (strconv.FormatUint a) = true.
Proof.
  intros Ha. exact (Digits_allDigits _ _ (FormatUint_Digits a Ha)).
Qed.

(** Printing an [int] loses nothing. *)
Lemma Itoa_inj a b : strconv.Itoa a = strconv.Itoa b -> a = b.
Proof.
  unfold strconv.Itoa.
  destruct (Z.ltb_spec a 0) as [Ha|Ha], (Z.ltb_spec b 0) as [Hb|Hb]; intros E.
  - injection E as E. apply FormatUint_inj in E; lia.
  - pose proof (FormatUint_allDigits b Hb) as Hd.
    rewrite <- E in Hd. discriminate Hd.
  - pose proof (FormatUint_allDigits a Ha) as Hd.
    rewrite E in Hd. discriminate Hd.
  - apply FormatUint_inj; assumption.
Qed.

Lemma allDigits_no_colon n x y : allDigits n = true -> n <> x ++ String ":" y.
Proof.
  intros Hd ->. rewrite allDigits_app in Hd.
  apply andb_true_iff in Hd. destruct Hd as [_ Hd]. discriminate Hd.
Qed.

Lemma Itoa_no_colon p x y : strconv.Itoa p <> x ++ String ":" y.
Proof.
  unfold strconv.Itoa.
  destruct (Z.ltb_spec p 0) as [Hp|Hp].
  - destruct x as [|c x]; cbn [append]; intros E; [discriminate|].
    injection E as _ E.
    apply (allDigits_no_colon _ x y (FormatUint_allDigits (- p) ltac:(lia))).
    exact E.
  - apply allDigits_no_colon, FormatUint_allDigits, Hp.
Qed.

Lemma target_inj a1 :
  forall a2 p1 p2,
    a1 ++ ":" ++ strconv.Itoa p1 = a2 ++ ":" ++ strconv.Itoa p2 ->
    a1 = a2 /\ p1 = p2.
Proof.
  induction a1 as [|c a1 IH]; intros [|d a2] p1 p2 E; cbn [append] in E.
  - injection E as E. split; [reflexivity | apply Itoa_inj, E].
  - injection E as _ E. now apply Itoa_no_colon in E.
  - injection E as _ E. symmetry in E. now apply Itoa_no_colon in E.
  - injection E as -> E. destruct (IH _ _ _ E) as [-> ->]. now split.
Qed.

(** The target string [Address:Port] names one address and one port:
    clients with the same target have the same address and the same
    port. *)
Theorem serverAddr_inj s1 s2 :
  serverAddr s1 = serverAddr s2 ->
  Address (config s1) = Address (config s2)
  /\ Port (config s1) = Port (config s2).
Proof.
  unfold serverAddr. apply target_inj.
Qed.

(** The sample client before and after validation. *)
Lemma serverAddr_inj_witness :
  Port (config (fst (validateConfig (NewSyslogClient sampleConfig)))) = 514.
Proof.
  apply (serverAddr_inj (fst (validateConfig (NewSyslogClient sampleConfig)))
           (NewSyslogClient sampleConfig)).
  reflexivity.
Defined.

(** ** The default port, continued *)

(** The adjustment of the port leaves the other fields alone, moves the
    port only from 514 and only to 601, moves every 514 given with a
    spelling of "tcp", and does nothing when done again. *)
Theorem adjustPort_frame c :
  Address (adjustPort c) = Address c
  /\ Transport (adjustPort c) = Transport c
  /\ Facility (adjustPort c) = Facility c
  /\ Severity (adjustPort c) = Severity c
  /\ Message (adjustPort c) = Message c
  /\ Hostname (adjustPort c) = Hostname c
  /\ Program (adjustPort c) = Program c
  /\ (Port (adjustPort c) = Port c
      \/ (Port c = 514 /\ In (Transport c) tcpSpellings
          /\ Port (adjustPort c) = 601))
  /\ (Port c = 514 -> In (Transport c) tcpSpellings ->
      Port (adjustPort c) = 601)
  /\ adjustPort (adjustPort c) = adjustPort c.
Proof.
  rewrite <- ToLower_tcp.
  unfold adjustPort, portFlagString.
  destruct (String.eqb_spec (strconv.Itoa (Port c)) "514") as [E|E];
    cbn [andb].
  - apply Itoa_514 in E.
    destruct (String.eqb_spec (strings.ToLower (Transport c)) "tcp")
      as [Et|Et].
    + repeat split; try reflexivity. right. repeat split; assumption.
    + repeat split; try reflexivity; try (now left).
      * intros _ H. contradiction.
      * rewrite E. cbn [andb].
        apply String.eqb_neq in Et. rewrite Et.
        rewrite andb_false_r. reflexivity.
  - repeat split; try reflexivity; try (now left).
    + intros H. rewrite H in E. now elim E.
    + apply String.eqb_neq in E. rewrite E. reflexivity.
Qed.

(** ** The tests *)

Lemma prefix_app p r : prefix p (p ++ r) = true.
Proof.
  induction p as [|c p IH]; cbn [append prefix]; [apply prefix_nil|].
  destruct (ascii_dec c c); [exact IH | congruence].
Qed.

Lemma Contains_unfold s substr :
  Contains s substr
  = prefix substr s
    || match s with
       | EmptyString => false
       | String _ r => Contains r substr
       end.
Proof. destruct s; reflexivity. Qed.

Lemma Contains_app a :
  forall b substr, Contains b substr = true -> Contains (a ++ b) substr = true.
Proof.
  induction a as [|c a IH]; intros b substr H; cbn [append]; [exact H|].
  rewrite Contains_unfold, (IH _ _ H). apply orb_true_r.
Qed.

Lemma Contains_mid a substr b : Contains (a ++ substr ++ b) substr = true.
Proof.
  apply Contains_app. rewrite Contains_unfold, prefix_app. reflexivity.
Qed.

(** The four parts every line holds: the tag in front, the host, the
    program with its colon, and the body. *)
Lemma line_HasPrefix_tag w s :
  HasPrefix (fst (formatMessage w s))
    ("<" ++ strconv.Itoa (priorityOf (config s)) ++ ">") = true.
Proof.
  destruct (HostSource_total w s) as [host Hh].
  destruct (ProgramSource_total s) as [program Hp].
  rewrite (formatMessage_line w s host program Hh Hp). cbn [fst].
  unfold HasPrefix.
  assert (forall x y z r : string, x ++ y ++ z ++ r = (x ++ y ++ z) ++ r)
    as Hassoc by (intros; now rewrite !append_assoc).
  rewrite Hassoc. apply prefix_app.
Qed.

Lemma line_Contains_tag w s :
  Contains (fst (formatMessage w s))
    ("<" ++ strconv.Itoa (priorityOf (config s)) ++ ">") = true.
Proof.
  rewrite Contains_unfold.
  pose proof (line_HasPrefix_tag w s) as H. unfold HasPrefix in H.
  rewrite H. reflexivity.
Qed.

Lemma line_Contains_host w s host :
  HostSource w s host ->
  Contains (fst (formatMessage w s)) (strings.ReplaceAll host " " "-") = true.
Proof.
  intros Hh.
  destruct (ProgramSource_total s) as [program Hp].
  rewrite (formatMessage_line w s host program Hh Hp). cbn [fst].
  do 5 apply Contains_app.
  apply (Contains_mid "").
Qed.

Lemma line_Contains_program w s program :
  ProgramSource s program ->
  Contains (fst (formatMessage w s))
    (strings.ReplaceAll program " " "-" ++ ":") = true.
Proof.
  intros Hp.
  destruct (HostSource_total w s) as [host Hh].
  rewrite (formatMessage_line w s host program Hh Hp). cbn [fst].
  do 7 apply Contains_app.
  change (": " ++ Message (config s)) with (":" ++ " " ++ Message (config s)).
  rewrite <- append_assoc.
  apply (Contains_mid "").
Qed.

Lemma line_Contains_body w s :
  Contains (fst (formatMessage w s)) (Message (config s)) = true.
Proof.
  destruct (HostSource_total w s) as [host Hh].
  destruct (ProgramSource_total s) as [program Hp].
  rewrite (formatMessage_line w s host program Hh Hp). cbn [fst].
  do 9 apply Contains_app.
  rewrite <- (append_nil_r (Message (config s))) at 1.
  apply (Contains_mid "").
Qed.

Lemma formatMessage_pair w s :
  formatMessage w s = (fst (formatMessage w s), None).
Proof. reflexivity. Qed.

(** The checks on a line whose host and program are overridden. *)
Lemma expectContains_overridden w c :
  Hostname c <> "" -> Program c <> "" ->
  expectContains (fst (formatMessage w (NewSyslogClient c)))
    [ "<" ++ strconv.Itoa (priorityOf c) ++ ">";
      strings.ReplaceAll (Hostname c) " " "-";
      strings.ReplaceAll (Program c) " " "-" ++ ":";
      Message c ] = [].
Proof.
  intros Hh Hp.
  unfold expectContains. cbn [flat_map].
  pose proof (line_Contains_tag w (NewSyslogClient c)) as H1.
  pose proof (line_Contains_host w (NewSyslogClient c) (Hostname c)
                (HostOverride w (NewSyslogClient c) Hh)) as H2.
  pose proof (line_Contains_program w (NewSyslogClient c) (Program c)
                (ProgramOverride (NewSyslogClient c) Hp)) as H3.
  pose proof (line_Contains_body w (NewSyslogClient c)) as H4.
  cbn [config NewSyslogClient] in H1, H4.
  rewrite H1, H2, H3, H4. reflexivity.
Qed.

(** One run of [TestPriorityCalculation] reports nothing, whatever the
    facility and the severity in its table. *)
Lemma checkPriority_passes w tt : checkPriority w tt = [].
Proof.
  unfold checkPriority. cbv zeta.
  rewrite formatMessage_pair. cbv iota beta.
  pose proof (line_HasPrefix_tag w
                (NewSyslogClient
                   (namedConfig (pc_facility tt) (pc_severity tt)
                      "test message" "" ""))) as H.
  unfold priorityOf in H.
  cbn [config NewSyslogClient namedConfig Facility Severity] in H.
  rewrite H. reflexivity.
Qed.

(** The tests of validation and of formatting in [main_test.go] report no
    failure, whatever the clock reads and whatever the host is called. *)
Theorem tests_pass w :
  TestSyslogConfig = []
  /\ TestFormatMessage w = []
  /\ TestPriorityCalculation w = []
  /\ TestMessageFormat w = []
  /\ TestSpaceHandling w = [].
Proof.
  split; [vm_compute; reflexivity|].
  split.
  { unfold TestFormatMessage, formatCases.
    cbn [flat_map fc_config fc_contains].
    rewrite (formatMessage_pair w (NewSyslogClient basicConfig)).
    rewrite (formatMessage_pair w (NewSyslogClient securityConfig)).
    rewrite (formatMessage_pair w (NewSyslogClient spacedConfig)).
    cbv iota beta.
    pose proof (expectContains_overridden w basicConfig
                  ltac:(discriminate) ltac:(discriminate)) as E1.
    pose proof (expectContains_overridden w securityConfig
                  ltac:(discriminate) ltac:(discriminate)) as E2.
    pose proof (expectContains_overridden w spacedConfig
                  ltac:(discriminate) ltac:(discriminate)) as E3.
    change (expectContains (fst (formatMessage w (NewSyslogClient basicConfig)))
              ["<134>"; "test-host"; "test-program:"; "test message"] = [])
      in E1.
    change (expectContains
              (fst (formatMessage w (NewSyslogClient securityConfig)))
              ["<33>"; "security-host"; "security-app:"; "security alert"]
            = []) in E2.
    change (expectContains (fst (formatMessage w (NewSyslogClient spacedConfig)))
              ["<134>"; "test-host-name"; "test-program:"; "test message"]
            = []) in E3.
    rewrite E1, E2, E3. reflexivity. }
  split.
  { unfold TestPriorityCalculation.
    induction priorityCases as [|tt l IH]; cbn [flat_map]; [reflexivity|].
    rewrite checkPriority_passes, IH. reflexivity. }
  split.
  { unfold TestMessageFormat. cbv zeta.
    rewrite (formatMessage_pair w (NewSyslogClient basicConfig)).
    cbv iota beta.
    pose proof (line_HasPrefix_tag w (NewSyslogClient basicConfig)) as H1.
    pose proof (line_Contains_host w (NewSyslogClient basicConfig)
                  "test-host"
                  (HostOverride w (NewSyslogClient basicConfig)
                     ltac:(discriminate))) as H2.
    pose proof (line_Contains_program w (NewSyslogClient basicConfig)
                  "test-program"
                  (ProgramOverride (NewSyslogClient basicConfig)
                     ltac:(discriminate))) as H3.
    pose proof (line_Contains_body w (NewSyslogClient basicConfig)) as H4.
    change (HasPrefix (fst (formatMessage w (NewSyslogClient basicConfig)))
              "<134>" = true) in H1.
    change (Contains (fst (formatMessage w (NewSyslogClient basicConfig)))
              "test-host" = true) in H2.
    change (Contains (fst (formatMessage w (NewSyslogClient basicConfig)))
              "test-program:" = true) in H3.
    change (Contains (fst (formatMessage w (NewSyslogClient basicConfig)))
              "test message" = true) in H4.
    rewrite H1, H2, H3, H4. reflexivity. }
  unfold TestSpaceHandling. cbv zeta.
  rewrite (formatMessage_pair w (NewSyslogClient spaceHandlingConfig)).
  cbv iota beta.
  pose proof (line_Contains_host w (NewSyslogClient spaceHandlingConfig)
                "host with spaces"
                (HostOverride w (NewSyslogClient spaceHandlingConfig)
                   ltac:(discriminate))) as H2.
  pose proof (line_Contains_program w (NewSyslogClient spaceHandlingConfig)
                "program with spaces"
                (ProgramOverride (NewSyslogClient spaceHandlingConfig)
                   ltac:(discriminate))) as H3.
  pose proof (line_Contains_body w (NewSyslogClient spaceHandlingConfig))
    as H4.
  change (Contains (fst (formatMessage w (NewSyslogClient spaceHandlingConfig)))
            "host-with-spaces" = true) in H2.
  change (Contains (fst (formatMessage w (NewSyslogClient spaceHandlingConfig)))
            "program-with-spaces:" = true) in H3.
  change (Contains (fst (formatMessage w (NewSyslogClient spaceHandlingConfig)))
            "test message with spaces" = true) in H4.
  rewrite H2, H3, H4. reflexivity.
Qed.

(** ** The transport selected *)

Lemma stdout_only_stdout pre e :
  forallb isStdout pre = true -> In e pre -> isStdout e = true.
Proof.
  intros H Hin. rewrite forallb_forall in H. apply H, Hin.
Qed.

(** A spelling of "udp" never leads to a TCP dial, a spelling of "tcp"
    never to a UDP resolution or a UDP dial, and any other transport to no
    event at all. *)
Theorem Send_uses_selected_transport w s :
  (In (Transport (config s)) udpSpellings ->
   forall n a d, ~ In (EvDialTimeout n a d) (fst (Send w s)))
  /\ (In (Transport (config s)) tcpSpellings ->
      (forall n a, ~ In (EvResolve n a) (fst (Send w s)))
      /\ (forall n a, ~ In (EvDialUDP n a) (fst (Send w s))))
  /\ (~ (In (Transport (config s)) udpSpellings
         \/ In (Transport (config s)) tcpSpellings) ->
      fst (Send w s) = []).
Proof.
  rewrite <- ToLower_udp, <- ToLower_tcp.
  destruct (snd (validateConfig s)) as [e|] eqn:Hv.
  { rewrite (Send_invalid w s e Hv). cbn [fst In].
    repeat split; intros; tauto. }
  pose proof (validated_transport s Hv) as Htr.
  destruct (Send_valid w s Hv) as (pre & Hpre & _ & [[Ht E]|[Ht E]]);
    rewrite E; cbn [fst]; rewrite Htr in Ht.
  - split; [|split].
    + intros _ n a d Hin. apply in_app_or in Hin. destruct Hin as [Hin|Hin].
      * apply (stdout_only_stdout _ _ Hpre) in Hin. discriminate Hin.
      * rewrite SendUDP_trace in Hin.
        destruct (ResolveUDPAddr w "udp" _) as [x|err];
          [destruct (DialUDP w "udp" x) as [c|err]|];
          cbn [In] in Hin;
          repeat (destruct Hin as [Hin|Hin]; [discriminate Hin|]);
          exact Hin.
    + intros Habs. rewrite Habs in Ht. discriminate Ht.
    + intros Habs. elim Habs. now left.
  - split; [|split].
    + intros Habs. rewrite Habs in Ht. discriminate Ht.
    + intros _. split; intros n a Hin; apply in_app_or in Hin;
        destruct Hin as [Hin|Hin];
        try (apply (stdout_only_stdout _ _ Hpre) in Hin; discriminate Hin);
        rewrite SendTCP_trace in Hin;
        destruct (DialTimeout w "tcp" _ 10) as [c|err];
        cbn [In] in Hin;
        repeat (destruct Hin as [Hin|Hin]; [discriminate Hin|]);
        exact Hin.
    + intros Habs. elim Habs. now right.
Qed.

(** ** The defaults of the flags *)

(** A flag left out never fails its own check: without [-facility],
    [-severity], [-port] or [-transport] the matching error of validation
    does not arise; and with a body and none of the four, the
    configuration validates, for UDP and port 514. *)
Theorem default_flags_validate cl :
  let client := NewSyslogClient (mainConfig cl) in
  (flagFacility cl = None ->
   snd (validateConfig client) <> Some ErrFacilityRange)
  /\ (flagSeverity cl = None ->
      snd (validateConfig client) <> Some ErrSeverityRange)
  /\ (flagPort cl = None ->
      snd (validateConfig client) <> Some ErrPortRange)
  /\ (flagTransport cl = None ->
      snd (validateConfig client) <> Some ErrTransportInvalid)
  /\ (forall m,
        flagMessage cl = Some m -> m <> "" ->
        flagFacility cl = None -> flagSeverity cl = None ->
        flagPort cl = None -> flagTransport cl = None ->
        validateConfig client
        = (NewSyslogClient (parsedConfig cl), None)
        /\ Port (parsedConfig cl) = 514
        /\ Transport (parsedConfig cl) = "udp").
Proof.
  cbv zeta.
  assert (Transport (mainConfig cl) = flagVar "udp" (flagTransport cl)
          /\ Facility (mainConfig cl) = flagVar 16 (flagFacility cl)
          /\ Severity (mainConfig cl) = flagVar 6 (flagSeverity cl)
          /\ (flagPort cl = None -> 1 <= Port (mainConfig cl) <= 65535))
    as (Htr & Hfa & Hse & Hport).
  { unfold mainConfig, adjustPort, portFlagString.
    destruct (_ && _)%bool; cbn [setPort parsedConfig Transport Facility
                                   Severity Port];
      (split; [reflexivity|]); (split; [reflexivity|]);
      (split; [reflexivity|]); intros Hn; rewrite ?Hn; cbn [flagVar]; lia. }
  split; [|split; [|split; [|split]]].
  - intros Hn.
    destruct (validateConfig_Validated (NewSyslogClient (mainConfig cl)))
      as [|_ H| | | |]; cbn [snd]; try discriminate.
    cbn [config NewSyslogClient] in H. rewrite Hfa, Hn in H.
    cbn [flagVar] in H. lia.
  - intros Hn.
    destruct (validateConfig_Validated (NewSyslogClient (mainConfig cl)))
      as [| |_ _ H| | |]; cbn [snd]; try discriminate.
    cbn [config NewSyslogClient] in H. rewrite Hse, Hn in H.
    cbn [flagVar] in H. lia.
  - intros Hn.
    destruct (validateConfig_Validated (NewSyslogClient (mainConfig cl)))
      as [| | |_ _ _ H| |]; cbn [snd]; try discriminate.
    cbn [config NewSyslogClient] in H. specialize (Hport Hn). lia.
  - intros Hn.
    destruct (validateConfig_Validated (NewSyslogClient (mainConfig cl)))
      as [| | | |_ _ _ _ H _|]; cbn [snd]; try discriminate.
    cbn [config NewSyslogClient] in H. rewrite Htr, Hn in H.
    now elim H.
  - intros m Hm Hne Hf Hs Hp Ht.
    unfold mainConfig, adjustPort, portFlagString, parsedConfig.
    rewrite Hm, Hf, Hs, Hp, Ht. cbn [flagVar Port Transport].
    destruct m as [|c m]; [now elim Hne|].
    repeat split.
Qed.

(** [-message hi] alone validates. *)
Lemma default_flags_validate_witness :
  snd (validateConfig (NewSyslogClient (mainConfig messageOnly))) = None.
Proof.
  destruct (default_flags_validate messageOnly) as (_ & _ & _ & _ & H).
  destruct (H "hi" eq_refl ltac:(discriminate) eq_refl eq_refl eq_refl eq_refl)
    as (E & _).
  rewrite E. reflexivity.
Defined.

(** ** The statements tried on command lines *)

(** [-transport tcp -message hi] dials port 601, and
    [-transport TCP -port 6514 -message hi] keeps port 6514. *)
Lemma mainConfig_port_witness :
  Port (mainConfig tcpNoPort) = 601 /\ Port (mainConfig tcpExplicit6514) = 6514.
Proof.
  split.
  - apply (proj1 (mainConfig_port tcpNoPort)); reflexivity.
  - destruct (mainConfig_port tcpExplicit6514) as (_ & _ & H & _).
    apply H; [reflexivity | discriminate].
Defined.

(** The sample configuration, spelled "UDP", dials no TCP connection. *)
Lemma Send_uses_selected_transport_witness :
  ~ In (EvDialTimeout "tcp" "localhost:514" 10)
      (fst (Send sampleWorld (NewSyslogClient sampleConfig))).
Proof.
  apply (proj1 (Send_uses_selected_transport sampleWorld
                  (NewSyslogClient sampleConfig))).
  cbn. tauto.
Defined.

(** ** The timestamp against the specification *)

Lemma append_cancel_l (a : string) :
  forall x y, a ++ x = a ++ y -> x = y.
Proof.
  induction a as [|c a IH]; intros x y E; cbn [append] in E; [exact E|].
  injection E as E. apply IH, E.
Qed.

Lemma pad2_twoDigits x : 0 <= x < 100 -> gotime.pad2 x = twoDigits x.
Proof.
  intros H. unfold gotime.pad2, twoDigits.
  destruct (Z.ltb_spec x 10).
  - rewrite Itoa_below_10, Z.div_small, Z.mod_small by lia. reflexivity.
  - apply Itoa_below_100. lia.
Qed.

(** On the days 1 to 9 the layout "Jan  2 15:04:05" prints the timestamp
    of the specification; from the 10th on it prints one space more
    between the month and the day, which is another string. *)
Lemma Format_against_rfc3164 t :
  validInstant t ->
  let tail :=
    " " ++ twoDigits (gotime.hour t) ++ ":" ++ twoDigits (gotime.minute t)
      ++ ":" ++ twoDigits (gotime.second t) in
  (gotime.day t < 10 -> gotime.Format t = rfc3164Timestamp t)
  /\ (10 <= gotime.day t ->
      gotime.Format t
      = gotime.shortMonth (gotime.month t) ++ "  "
          ++ twoDigits (gotime.day t) ++ tail
      /\ rfc3164Timestamp t
         = gotime.shortMonth (gotime.month t) ++ " "
             ++ twoDigits (gotime.day t) ++ tail
      /\ gotime.Format t <> rfc3164Timestamp t).
Proof.
  intros (Hd & Hh & Hm & Hs). cbv zeta.
  unfold gotime.Format, rfc3164Timestamp, spacePaddedDay.
  rewrite !pad2_twoDigits by lia.
  split.
  - intros Hlt.
    destruct (Z.ltb_spec (gotime.day t) 10); [|lia].
    rewrite Itoa_below_10 by lia. reflexivity.
  - intros Hge.
    destruct (Z.ltb_spec (gotime.day t) 10); [lia|].
    rewrite Itoa_below_100 by lia. fold (twoDigits (gotime.day t)).
    split; [reflexivity|]. split; [reflexivity|].
    intros E. apply append_cancel_l in E.
    cbn [append] in E. unfold twoDigits at 1 3 in E. cbn [append] in E.
    injection E as E _.
    assert (isDigit (strconv.digit (gotime.day t / 10)) = true) as Hdig.
    { apply isDigit_digit.
      split; [apply Z.div_pos; lia | apply Z.div_lt_upper_bound; lia]. }
    rewrite <- E in Hdig. discriminate Hdig.
Qed.

(** Claim C2 on the 15th of November at 07:05:59, with facility 16 and
    severity 6: the line starts with the tag "<134>", and what follows the
    tag is "Nov  15 07:05:59", with two spaces, where the timestamp of the
    specification is "Nov 15 07:05:59"; the line does not start with the
    tag followed by the timestamp. *)
Theorem formatMessage_timestamp_mid_month :
  fst (formatMessage midMonthWorld (NewSyslogClient sampleConfig))
  = "<134>Nov  15 07:05:59 test-host-name test-program: test message"
  /\ rfc3164Timestamp (Now midMonthWorld) = "Nov 15 07:05:59"
  /\ prefix ("<134>" ++ rfc3164Timestamp (Now midMonthWorld))
       (fst (formatMessage midMonthWorld (NewSyslogClient sampleConfig)))
     = false.
Proof.
  split; [vm_compute; reflexivity|].
  split; vm_compute; reflexivity.
Qed.

(** ** The exit status *)


